(** * ResumeMatch AI: text extraction and response parsing of [app.py]

    A shallow embedding of [extract_text_from_file], [analyze_resume] and
    [main] of [src/app.py], together with the parts of the Python runtime
    they call ([bytes.decode], [str.join], [str.strip], [json.loads]).

    Python values are modelled as follows.
    - [str] is a sequence of Unicode code points: [list N].
    - [bytes] is [list byte].
    - An uploaded file is a [BytesIO]: immutable contents plus a read
      cursor; the cursor lives in the [world], next to the calls made on
      the Streamlit page.
    - A call either returns or raises: [outcome].  *)

From Stdlib Require Import List NArith ZArith Bool Lia.
From Stdlib Require Import Strings.String Strings.Ascii Strings.Byte.
Import ListNotations.

Local Open Scope N_scope.
Set Warnings "-register-all".

(* ------------------------------------------------------------------ *)
(** ** Python strings and bytes *)

Definition str := list N.
Definition bytes := list byte.

(** An ASCII literal of the source as a [str]. *)
Definition py (s : string) : str := map N_of_ascii (list_ascii_of_string s).

(** The same, with every apostrophe standing for a double quote, so that
    literals holding double quotes can be written down. *)
Definition dq (s : string) : str :=
  map (fun c => if c =? 39 then 34 else c) (py s).

Definition LF : str := [10].

Fixpoint str_eqb (a b : str) : bool :=
  match a, b with
  | [], [] => true
  | x :: a', y :: b' => (x =? y) && str_eqb a' b'
  | _, _ => false
  end.

(** [sep.join(items)] *)
Fixpoint join (sep : str) (items : list str) : str :=
  match items with
  | [] => []
  | [x] => x
  | x :: rest => x ++ sep ++ join sep rest
  end.

(** [s.startswith(prefix)], also giving what follows the prefix. *)
Fixpoint strip_prefix (prefix s : str) : option str :=
  match prefix, s with
  | [], _ => Some s
  | p :: prefix', c :: s' => if p =? c then strip_prefix prefix' s' else None
  | _ :: _, [] => None
  end.

(** [str.isspace] on one code point (the Unicode White_Space and
    bidirectional-separator characters CPython strips). *)
Definition py_isspace (c : N) : bool :=
  ((0x09 <=? c) && (c <=? 0x0D)) || ((0x1C <=? c) && (c <=? 0x20))
  || (c =? 0x85) || (c =? 0xA0) || (c =? 0x1680)
  || ((0x2000 <=? c) && (c <=? 0x200A))
  || (c =? 0x2028) || (c =? 0x2029) || (c =? 0x202F) || (c =? 0x205F)
  || (c =? 0x3000).

Fixpoint lstrip (s : str) : str :=
  match s with
  | c :: s' => if py_isspace c then lstrip s' else s
  | [] => []
  end.

(** [s.strip()] *)
Definition strip (s : str) : str := rev (lstrip (rev (lstrip s))).

(** Truthiness of a [str]: non-empty. *)
Definition truthy (s : str) : bool :=
  match s with [] => false | _ :: _ => true end.

(* ------------------------------------------------------------------ *)
(** ** [bytes.decode("utf-8", errors="ignore")]

    CPython's decoder: a malformed sequence is skipped up to the byte
    that broke it, decoding resumes at that byte; a sequence cut short by
    the end of the input is skipped whole. *)

Definition is_continuation (b : N) : bool := (0x80 <=? b) && (b <? 0xC0).

Fixpoint utf8_decode_ignore (s : bytes) : str :=
  match s with
  | [] => []
  | b0 :: s1 =>
    let ch := Byte.to_N b0 in
    if ch <? 0x80 then ch :: utf8_decode_ignore s1
    else if ch <? 0xC2 then utf8_decode_ignore s1
    else if ch <? 0xE0 then
      match s1 with
      | [] => []
      | b1 :: s2 =>
        let ch2 := Byte.to_N b1 in
        if is_continuation ch2
        then (ch * 64 + ch2 - 0x3080) :: utf8_decode_ignore s2
        else utf8_decode_ignore s1
      end
    else if ch <? 0xF0 then
      match s1 with
      | [] => []
      | b1 :: s2 =>
        let ch2 := Byte.to_N b1 in
        if negb (is_continuation ch2)
           || (if ch2 <? 0xA0 then ch =? 0xE0 else ch =? 0xED)
        then utf8_decode_ignore s1
        else
          match s2 with
          | [] => []
          | b2 :: s3 =>
            let ch3 := Byte.to_N b2 in
            if is_continuation ch3
            then (ch * 4096 + ch2 * 64 + ch3 - 0xE2080)
                   :: utf8_decode_ignore s3
            else utf8_decode_ignore s2
          end
      end
    else if ch <? 0xF5 then
      match s1 with
      | [] => []
      | b1 :: s2 =>
        let ch2 := Byte.to_N b1 in
        if negb (is_continuation ch2)
           || (if ch2 <? 0x90 then ch =? 0xF0 else ch =? 0xF4)
        then utf8_decode_ignore s1
        else
          match s2 with
          | [] => []
          | b2 :: s3 =>
            let ch3 := Byte.to_N b2 in
            if negb (is_continuation ch3) then utf8_decode_ignore s2
            else
              match s3 with
              | [] => []
              | b3 :: s4 =>
                let ch4 := Byte.to_N b3 in
                if is_continuation ch4
                then (ch * 262144 + ch2 * 4096 + ch3 * 64 + ch4 - 0x3C82080)
                       :: utf8_decode_ignore s4
                else utf8_decode_ignore s3
              end
          end
      end
    else utf8_decode_ignore s1
  end.

(** The reference the decoder is measured against: [str.encode("utf-8")]
    on Unicode scalar values. *)
Definition byte_of_N (n : N) : byte :=
  match Byte.of_N n with Some b => b | None => x00 end.

Definition is_scalar (c : N) : bool :=
  (c <? 0xD800) || ((0xE000 <=? c) && (c <? 0x110000)).

Definition utf8_encode_char (c : N) : bytes :=
  if c <? 0x80 then [byte_of_N c]
  else if c <? 0x800 then
    [byte_of_N (0xC0 + c / 64); byte_of_N (0x80 + c mod 64)]
  else if c <? 0x10000 then
    [byte_of_N (0xE0 + c / 4096); byte_of_N (0x80 + (c / 64) mod 64);
     byte_of_N (0x80 + c mod 64)]
  else
    [byte_of_N (0xF0 + c / 262144); byte_of_N (0x80 + (c / 4096) mod 64);
     byte_of_N (0x80 + (c / 64) mod 64); byte_of_N (0x80 + c mod 64)].

Definition utf8_encode (s : str) : bytes := flat_map utf8_encode_char s.

(** [a] is [b] with some elements left out. *)
Inductive subseq {A : Type} : list A -> list A -> Prop :=
| subseq_nil : subseq [] []
| subseq_keep x a b : subseq a b -> subseq (x :: a) (x :: b)
| subseq_drop x a b : subseq a b -> subseq a (x :: b).

(* ------------------------------------------------------------------ *)
(** ** Python objects, exceptions and the effects of a call *)

(** The objects [json.loads] builds.  A [dict] keeps its keys in
    insertion order, each key once.  A float keeps the text it was read
    from: no operation of the program computes with it. *)
Inductive value : Type :=
| PyNone
| PyBool (b : bool)
| PyInt (z : Z)
| PyFloat (lexeme : str)
| PyStr (s : str)
| PyList (items : list value)
| PyDict (pairs : list (str * value)).

Inductive exn : Type :=
| ImportError
| TypeError
| KeyError (key : str)
| IndexError
| JSONDecodeError
| RecursionError
| LibraryError (origin : string).

Inductive outcome (A : Type) : Type :=
| Returns (a : A)
| Raises (e : exn).
Arguments Returns {A} a.
Arguments Raises {A} e.

(** A piece of an f-string: literal text, or [str(v)] of an object. *)
Inductive piece : Type :=
| Text (s : str)
| Format (v : value).

(** The calls on the Streamlit page that show something.  The input
    widgets, which hand values to the script, are in [widgets] below;
    the containers ([st.columns], [st.spinner], [st.expander]) only
    arrange what is shown and are not recorded. *)
Inductive st_call : Type :=
| st_set_page_config (page_title page_icon : str)
| st_title (msg : str)
| st_sidebar_header (msg : str)
| st_error (msg : str)
| st_warning (msg : str)
| st_success (msg : str)
| st_text (body : value)
| st_text_area (label content : str)
| st_subheader (msg : str)
| st_metric (label : str) (shown : list piece)
| st_write (shown : list piece)
| st_markdown (shown : list piece).

(** What a call can change: the read cursor of the uploaded file object
    and the page. *)
Record world : Type := World {
  cursor : nat;
  screen : list st_call
}.

Definition Py (A : Type) : Type := world -> outcome A * world.

Definition ret {A} (a : A) : Py A := fun w => (Returns a, w).
Definition raise {A} (e : exn) : Py A := fun w => (Raises e, w).
Definition bind {A B} (m : Py A) (k : A -> Py B) : Py B :=
  fun w =>
    match m w with
    | (Returns a, w') => k a w'
    | (Raises e, w') => (Raises e, w')
    end.

Declare Scope py_scope.
Delimit Scope py_scope with py.
Notation "x <- m ;; k" := (bind m (fun x => k))
  (at level 61, m at next level, right associativity) : py_scope.
Notation "m ;;; k" := (bind m (fun _ => k))
  (at level 61, right associativity) : py_scope.
Local Open Scope py_scope.

(** A call that touches neither the cursor nor the page. *)
Definition call {A} (r : outcome A) : Py A := fun w => (r, w).

Definition show (c : st_call) : Py unit :=
  fun w => (Returns tt, World (cursor w) (screen w ++ [c])).

(** [try: m except: handler] with a bare [except]. *)
Definition try_except {A} (m : Py A) (handler : Py A) : Py A :=
  fun w =>
    match m w with
    | (Returns a, w') => (Returns a, w')
    | (Raises _, w') => handler w'
    end.

(* ------------------------------------------------------------------ *)
(** ** The uploaded file and the libraries read from it *)

(** Streamlit's [UploadedFile], a [BytesIO] with a declared MIME type. *)
Record UploadedFile : Type := Upload {
  type : str;
  getvalue : bytes
}.

(** [uploaded_file.read()]: everything from the cursor on; the cursor
    ends up at the end of the buffer. *)
Definition read (f : UploadedFile) : Py bytes :=
  fun w =>
    (Returns (skipn (cursor w) (getvalue f)),
     World (Nat.max (cursor w) (List.length (getvalue f))) (screen w)).

(** A page of a parsed PDF: what its [extract_text()] does. *)
Record Page : Type := { extract_text : outcome (option str) }.

(** A parser of a third-party library applied to the file object.  Both
    libraries address the stream by absolute offsets, so what they
    compute depends on the buffer only; the second component is where
    they leave the cursor. *)
Definition stream_parser (A : Type) : Type := bytes -> outcome A * nat.

Definition open_with {A} (parser : stream_parser A) (f : UploadedFile)
  : Py A :=
  fun w =>
    let (r, c) := parser (getvalue f) in (r, World c (screen w)).

(** The keyword arguments of [client.chat.completions.create]. *)
Record ChatRequest : Type := {
  model : str;
  temperature : value;
  response_format : value;
  messages : value
}.

(** The response: [message.content] of each choice, [None] allowed. *)
Record ChatCompletion : Type := { choices : list (option str) }.

(** A client: what [chat.completions.create] does with a request. *)
Definition Client : Type := ChatRequest -> outcome ChatCompletion.

(** What is installed.  A parser is [None] when its import raises
    [ImportError]; [OpenAI] builds a client from an explicit key or from
    the environment. *)
Record runtime : Type := Runtime {
  PdfReader : option (stream_parser (list Page));
  Document : option (stream_parser (list str));
  OpenAI : option str -> outcome Client
}.

Definition TEXT_PLAIN : str := py "text/plain".
Definition APPLICATION_PDF : str := py "application/pdf".
Definition DOCX : str :=
  py "application/vnd.openxmlformats-officedocument.wordprocessingml.document".

(** [x or ""] *)
Definition or_empty (x : option str) : str :=
  match x with
  | Some (c :: t) => c :: t
  | _ => []
  end.

(** The loop [for page in reader.pages: text += page.extract_text() or ""] *)
Fixpoint for_pages (pages : list Page) (text : str) : Py str :=
  match pages with
  | [] => ret text
  | page :: rest =>
    t <- call (extract_text page) ;;
    for_pages rest (text ++ or_empty t)
  end.

Definition extract_text_from_file (rt : runtime)
  (uploaded_file : option UploadedFile) : Py str :=
  match uploaded_file with
  | None => ret []
  | Some f =>
    let file_type := type f in
    if str_eqb file_type TEXT_PLAIN then
      b <- read f ;;
      ret (utf8_decode_ignore b)
    else if str_eqb file_type APPLICATION_PDF then
      match PdfReader rt with
      | None =>
        show (st_error (py "PyPDF2 missing. Add to requirements.txt")) ;;;
        ret []
      | Some PdfReader =>
        pages <- open_with PdfReader f ;;
        for_pages pages []
      end
    else if str_eqb file_type DOCX then
      match Document rt with
      | None =>
        show (st_error (py "python-docx missing. Add to requirements.txt")) ;;;
        ret []
      | Some Document =>
        paragraphs <- open_with Document f ;;
        ret (join LF paragraphs)
      end
    else
      show (st_warning (py "Unsupported file type")) ;;;
      ret []
  end.

(* ------------------------------------------------------------------ *)
(** ** [json.loads]

    The grammar of CPython's [json] scanner with its default settings
    (strict strings, [NaN] and the infinities accepted, a repeated key
    keeps its last value).  Nesting is followed with [fuel], of which
    [json_loads] hands out enough for any input; the recursion limit of
    the interpreter, beyond which CPython raises [RecursionError], is not
    part of the model.  *)

Definition chr (a : ascii) : N := N_of_ascii a.
Definition QUOTE : N := 34.
Definition BACKSLASH : N := 92.

Definition is_ws (c : N) : bool :=
  (c =? 32) || (c =? 9) || (c =? 10) || (c =? 13).

Fixpoint skip_ws (s : str) : str :=
  match s with
  | c :: s' => if is_ws c then skip_ws s' else s
  | [] => []
  end.

Definition is_digit (c : N) : bool := (48 <=? c) && (c <=? 57).

Definition hex_digit (c : N) : option N :=
  if (48 <=? c) && (c <=? 57) then Some (c - 48)
  else if (97 <=? c) && (c <=? 102) then Some (c - 87)
  else if (65 <=? c) && (c <=? 70) then Some (c - 55)
  else None.

(** Four hex digits of a [\uXXXX] escape and what follows them. *)
Definition hex4 (s : str) : option (N * str) :=
  match s with
  | a :: b :: c :: d :: rest =>
    match hex_digit a, hex_digit b, hex_digit c, hex_digit d with
    | Some a, Some b, Some c, Some d =>
      Some (((a * 16 + b) * 16 + c) * 16 + d, rest)
    | _, _, _, _ => None
    end
  | _ => None
  end.

(** The one-letter escapes. *)
Definition escape (c : N) : option N :=
  if c =? QUOTE then Some QUOTE
  else if c =? BACKSLASH then Some BACKSLASH
  else if c =? chr "/" then Some (chr "/")
  else if c =? chr "b" then Some 8
  else if c =? chr "f" then Some 12
  else if c =? chr "n" then Some 10
  else if c =? chr "r" then Some 13
  else if c =? chr "t" then Some 9
  else None.

Definition consed {A} (c : A) (r : outcome (list A * str))
  : outcome (list A * str) :=
  match r with
  | Returns (t, rest) => Returns (c :: t, rest)
  | Raises e => Raises e
  end.

(** [scanstring], entered after the opening quote: the decoded text and
    what follows the closing quote. *)
Fixpoint scanstring (s : str) : outcome (str * str) :=
  match s with
  | [] => Raises JSONDecodeError
  | c :: s1 =>
    if c =? QUOTE then Returns ([], s1)
    else if c =? BACKSLASH then
      match s1 with
      | [] => Raises JSONDecodeError
      | e :: s2 =>
        if e =? chr "u" then
          match s2 with
          | h1 :: h2 :: h3 :: h4 :: s6 =>
            match hex4 [h1; h2; h3; h4] with
            | None => Raises JSONDecodeError
            | Some (uni, _) =>
              if (0xD800 <=? uni) && (uni <=? 0xDBFF) then
                match s6 with
                | b :: u :: k1 :: k2 :: k3 :: k4 :: s12 =>
                  if (b =? BACKSLASH) && (u =? chr "u") then
                    match hex4 [k1; k2; k3; k4] with
                    | None => Raises JSONDecodeError
                    | Some (uni2, _) =>
                      if (0xDC00 <=? uni2) && (uni2 <=? 0xDFFF)
                      then consed
                             (0x10000 + (uni - 0xD800) * 1024 + (uni2 - 0xDC00))
                             (scanstring s12)
                      else consed uni (scanstring s6)
                    end
                  else consed uni (scanstring s6)
                | _ => consed uni (scanstring s6)
                end
              else consed uni (scanstring s6)
            end
          | _ => Raises JSONDecodeError
          end
        else
          match escape e with
          | Some char => consed char (scanstring s2)
          | None => Raises JSONDecodeError
          end
      end
    else if c <? 0x20 then Raises JSONDecodeError
    else consed c (scanstring s1)
  end.

(** The longest run of digits and what follows it. *)
Fixpoint digits (s : str) : str * str :=
  match s with
  | c :: s' =>
    if is_digit c then let (d, rest) := digits s' in (c :: d, rest)
    else ([], s)
  | [] => ([], [])
  end.

Definition int_of_digits (d : str) : Z :=
  fold_left (fun acc c => (acc * 10 + Z.of_N (c - 48))%Z) d 0%Z.

(** The integer part, an optional minus then [0] or a run of digits not
    starting with [0]: sign, digits, rest. *)
Definition match_integer (s : str) : option (bool * str * str) :=
  let (neg, s1) :=
    match s with
    | c :: s' => if c =? chr "-" then (true, s') else (false, s)
    | [] => (false, s)
    end in
  match s1 with
  | c :: s2 =>
    if c =? chr "0" then Some (neg, [c], s2)
    else if is_digit c then
      let (d, rest) := digits s2 in Some (neg, c :: d, rest)
    else None
  | [] => None
  end.

(** The fraction, a dot and at least one digit, when there is one. *)
Definition match_frac (s : str) : str * str :=
  match s with
  | p :: c :: s' =>
    if (p =? chr ".") && is_digit c then
      let (d, rest) := digits s' in (p :: c :: d, rest)
    else ([], s)
  | _ => ([], s)
  end.

(** The exponent, [e] or [E], an optional sign and at least one digit,
    when there is one. *)
Definition match_exp (s : str) : str * str :=
  match s with
  | e :: s1 =>
    if (e =? chr "e") || (e =? chr "E") then
      let (sign, s2) :=
        match s1 with
        | g :: s' =>
          if (g =? chr "-") || (g =? chr "+") then ([g], s') else ([], s1)
        | [] => ([], s1)
        end in
      match digits s2 with
      | ([], _) => ([], s)
      | (d, rest) => (e :: sign ++ d, rest)
      end
    else ([], s)
  | [] => ([], s)
  end.

Definition match_number (s : str) : option (value * str) :=
  match match_integer s with
  | None => None
  | Some (neg, int, s1) =>
    let (frac, s2) := match_frac s1 in
    let (exp, s3) := match_exp s2 in
    let sign := if neg then [chr "-"] else [] in
    match frac, exp with
    | [], [] =>
      let n := int_of_digits int in
      Some (PyInt (if neg then (- n)%Z else n), s3)
    | _, _ => Some (PyFloat (sign ++ int ++ frac ++ exp), s3)
    end
  end.

(** [d[key] = v] *)
Fixpoint dict_set (d : list (str * value)) (key : str) (v : value)
  : list (str * value) :=
  match d with
  | [] => [(key, v)]
  | (k, x) :: d' =>
    if str_eqb k key then (k, v) :: d' else (k, x) :: dict_set d' key v
  end.

(** [d.get(key)] *)
Fixpoint dict_get (d : list (str * value)) (key : str) : option value :=
  match d with
  | [] => None
  | (k, x) :: d' => if str_eqb k key then Some x else dict_get d' key
  end.

Fixpoint scan_once (fuel : nat) (s : str) : outcome (value * str) :=
  match fuel with
  | O => Raises RecursionError
  | S fuel' =>
    match s with
    | [] => Raises JSONDecodeError
    | c :: s1 =>
      if c =? QUOTE then
        match scanstring s1 with
        | Returns (t, rest) => Returns (PyStr t, rest)
        | Raises e => Raises e
        end
      else if c =? chr "{" then
        match skip_ws s1 with
        | c2 :: s2 =>
          if c2 =? chr "}" then Returns (PyDict [], s2)
          else parse_object fuel' (c2 :: s2) []
        | [] => Raises JSONDecodeError
        end
      else if c =? chr "[" then
        match skip_ws s1 with
        | c2 :: s2 =>
          if c2 =? chr "]" then Returns (PyList [], s2)
          else parse_array fuel' (c2 :: s2) []
        | [] => Raises JSONDecodeError
        end
      else
        match strip_prefix (py "null") s with
        | Some rest => Returns (PyNone, rest)
        | None =>
        match strip_prefix (py "true") s with
        | Some rest => Returns (PyBool true, rest)
        | None =>
        match strip_prefix (py "false") s with
        | Some rest => Returns (PyBool false, rest)
        | None =>
        match match_number s with
        | Some r => Returns r
        | None =>
        match strip_prefix (py "NaN") s with
        | Some rest => Returns (PyFloat (py "NaN"), rest)
        | None =>
        match strip_prefix (py "Infinity") s with
        | Some rest => Returns (PyFloat (py "Infinity"), rest)
        | None =>
        match strip_prefix (py "-Infinity") s with
        | Some rest => Returns (PyFloat (py "-Infinity"), rest)
        | None => Raises JSONDecodeError
        end end end end end end end
    end
  end

(** The members of an object, entered at a key; [acc] is the dict so far. *)
with parse_object (fuel : nat) (s : str) (acc : list (str * value))
  : outcome (value * str) :=
  match fuel with
  | O => Raises RecursionError
  | S fuel' =>
    match s with
    | q :: s1 =>
      if q =? QUOTE then
        match scanstring s1 with
        | Raises e => Raises e
        | Returns (key, s2) =>
          match skip_ws s2 with
          | c :: s3 =>
            if c =? chr ":" then
              match scan_once fuel' (skip_ws s3) with
              | Raises e => Raises e
              | Returns (v, s4) =>
                let acc' := dict_set acc key v in
                match skip_ws s4 with
                | d :: s5 =>
                  if d =? chr "}" then Returns (PyDict acc', s5)
                  else if d =? chr "," then
                    parse_object fuel' (skip_ws s5) acc'
                  else Raises JSONDecodeError
                | [] => Raises JSONDecodeError
                end
              end
            else Raises JSONDecodeError
          | [] => Raises JSONDecodeError
          end
        end
      else Raises JSONDecodeError
    | [] => Raises JSONDecodeError
    end
  end

(** The elements of an array, entered at a value; [acc] is the list so
    far, last element first. *)
with parse_array (fuel : nat) (s : str) (acc : list value)
  : outcome (value * str) :=
  match fuel with
  | O => Raises RecursionError
  | S fuel' =>
    match scan_once fuel' s with
    | Raises e => Raises e
    | Returns (v, s1) =>
      match skip_ws s1 with
      | d :: s2 =>
        if d =? chr "]" then Returns (PyList (rev (v :: acc)), s2)
        else if d =? chr "," then parse_array fuel' (skip_ws s2) (v :: acc)
        else Raises JSONDecodeError
      | [] => Raises JSONDecodeError
      end
    end
  end.

Definition BOM : N := 0xFEFF.

(** [json.loads(s)]; [None] is Python's [None], which is not a [str]. *)
Definition json_loads (s : option str) : outcome value :=
  match s with
  | None => Raises TypeError
  | Some s =>
    match s with
    | c :: _ =>
      if c =? BOM then Raises JSONDecodeError
      else
        match scan_once (2 * List.length s + 2) (skip_ws s) with
        | Raises e => Raises e
        | Returns (obj, rest) =>
          match skip_ws rest with
          | [] => Returns obj
          | _ :: _ => Raises JSONDecodeError
          end
        end
    | [] => Raises JSONDecodeError
    end
  end.

(* ------------------------------------------------------------------ *)
(** ** [get_openai_client] and [analyze_resume] *)

Definition get_openai_client (rt : runtime) (api_key : str)
  : outcome Client :=
  if truthy api_key then OpenAI rt (Some api_key) else OpenAI rt None.

Definition system_prompt : str :=
  join LF
    [ [];
      py "You are an expert HR recruiter and ATS system.";
      py "Compare a candidate's resume with a job description.";
      [];
      py "Return ONLY valid JSON with structure:";
      py "{";
      dq "  'match_score': int,";
      dq "  'verdict': 'Strong match' | 'Moderate match' | 'Weak match',";
      dq "  'summary': 'overall summary',";
      dq "  'strengths': ['point1', 'point2'],";
      dq "  'gaps': ['gap1', 'gap2'],";
      dq "  'improvement_suggestions': ['suggestion1', 'suggestion2'],";
      dq "  'recommended_role_level': 'Junior / Mid-level / Senior'";
      py "}";
      [] ].

Definition user_content (resume_text jd_text : str) : str :=
  join LF
    [ []; py "JOB DESCRIPTION:"; jd_text; []; py "RESUME:"; resume_text; [] ].

Definition message (role content : str) : value :=
  PyDict [(py "role", PyStr role); (py "content", PyStr content)].

Definition request (resume_text jd_text : str) : ChatRequest :=
  {| model := py "gpt-4.1-mini";
     temperature := PyFloat (py "0.2");
     response_format := PyDict [(py "type", PyStr (py "json_object"))];
     messages :=
       PyList [ message (py "system") system_prompt;
                message (py "user") (user_content resume_text jd_text) ] |}.

(** [content] as a Python object. *)
Definition obj_of_content (content : option str) : value :=
  match content with
  | Some s => PyStr s
  | None => PyNone
  end.

(** The record of the [except] branch. *)
Definition invalid_json (content : option str) : value :=
  PyDict [ (py "error", PyStr (py "Invalid JSON from model"));
           (py "raw", obj_of_content content) ].

Definition analyze_resume (client : Client) (resume_text jd_text : str)
  : Py value :=
  response <- call (client (request resume_text jd_text)) ;;
  content <- call (match choices response with
                   | c :: _ => Returns c
                   | [] => Raises IndexError
                   end) ;;
  try_except (call (json_loads content)) (ret (invalid_json content)).

(* ------------------------------------------------------------------ *)
(** ** [main]: the page *)

(** [v == s] for a string [s]. *)
Definition value_eqb_str (v : value) (s : str) : bool :=
  match v with
  | PyStr t => str_eqb t s
  | _ => false
  end.

(** [needle in haystack] for two strings. *)
Fixpoint is_substring (needle haystack : str) : bool :=
  match strip_prefix needle haystack with
  | Some _ => true
  | None =>
    match haystack with
    | [] => false
    | _ :: rest => is_substring needle rest
    end
  end.

(** [key in v] for a string [key]. *)
Definition contains (key : str) (v : value) : outcome bool :=
  match v with
  | PyDict d => Returns (existsb (fun kv => str_eqb (fst kv) key) d)
  | PyList l => Returns (existsb (fun x => value_eqb_str x key) l)
  | PyStr s => Returns (is_substring key s)
  | _ => Raises TypeError
  end.

(** [v[key]] for a string [key]. *)
Definition getitem (v : value) (key : str) : outcome value :=
  match v with
  | PyDict d =>
    match dict_get d key with
    | Some x => Returns x
    | None => Raises (KeyError key)
    end
  | _ => Raises TypeError
  end.

(** What [for x in v] goes through. *)
Definition iterate (v : value) : outcome (list value) :=
  match v with
  | PyList l => Returns l
  | PyDict d => Returns (map (fun kv => PyStr (fst kv)) d)
  | PyStr s => Returns (map (fun c => PyStr [c]) s)
  | _ => Raises TypeError
  end.

(** [for x in result[key]: st.markdown(f"- {x}")] *)
Fixpoint bullets (items : list value) : Py unit :=
  match items with
  | [] => ret tt
  | x :: rest =>
    show (st_markdown [Text (py "- "); Format x]) ;;; bullets rest
  end.

Definition bullet_list (result : value) (key : str) : Py unit :=
  section <- call (getitem result key) ;;
  items <- call (iterate section) ;;
  bullets items.

(** What the widgets of the page hand to the script in one run. *)
Record widgets : Type := {
  api_key : str;
  uploaded_file : option UploadedFile;
  jd_text : str;
  analyze_clicked : bool
}.

(** The part of [main] that follows [analyze_resume]. *)
Definition show_result (result : value) : Py unit :=
  failed <- call (contains (py "error") result) ;;
  if failed : bool then
    show (st_error (py "Model error: Could not parse response")) ;;;
    raw <- call (getitem result (py "raw")) ;;
    show (st_text raw)
  else
    show (st_subheader (0x1F4CA :: py " Match Summary")) ;;;
    score <- call (getitem result (py "match_score")) ;;
    show (st_metric (py "Match Score") [Format score; Text (py "/100")]) ;;;
    verdict <- call (getitem result (py "verdict")) ;;
    show (st_write [Text (py "**Verdict:** "); Format verdict]) ;;;
    summary <- call (getitem result (py "summary")) ;;
    show (st_write [Text (py "**Summary:** "); Format summary]) ;;;
    show (st_markdown [Text (py "### " ++ 0x2705 :: py " Strengths")]) ;;;
    bullet_list result (py "strengths") ;;;
    show (st_markdown [Text (py "### " ++ 0x26A0 :: 0xFE0F :: py " Gaps")]) ;;;
    bullet_list result (py "gaps") ;;;
    show (st_markdown
            [Text (py "### " ++ 0x1F6E0 :: py " Suggestions to Improve Resume")]) ;;;
    bullet_list result (py "improvement_suggestions") ;;;
    level <- call (getitem result (py "recommended_role_level")) ;;
    show (st_write [Text (py "**Recommended Role Level:** "); Format level]).

Definition main (rt : runtime) (ui : widgets) : Py unit :=
  show (st_set_page_config (py "ResumeMatch AI") [0x1F4C4]) ;;;
  show (st_title (0x1F4C4 :: py " ResumeMatch AI " ++ 0x2013
                    :: py " Resume Screening Agent")) ;;;
  show (st_write
          [Text (py "Upload resume + paste job description " ++ 0x2192
                   :: py " get match score, strengths, gaps & suggestions.")]) ;;;
  show (st_sidebar_header (0x2699 :: 0xFE0F :: py " Configuration")) ;;;
  show (st_subheader (chr "1" :: 0xFE0F :: 0x20E3 :: py " Upload Resume")) ;;;
  resume_text <-
    match uploaded_file ui with
    | Some f =>
      resume_text <- extract_text_from_file rt (Some f) ;;
      (if truthy resume_text then
         show (st_success (py "Resume extracted.")) ;;;
         show (st_text_area (py "Resume Text") resume_text)
       else ret tt) ;;;
      ret resume_text
    | None => ret []
    end ;;
  show (st_subheader
          (chr "2" :: 0xFE0F :: 0x20E3 :: py " Paste Job Description")) ;;;
  show (st_markdown [Text (py "---")]) ;;;
  if analyze_clicked ui then
    if negb (truthy resume_text) then
      show (st_error (py "Upload resume first."))
    else if negb (truthy (strip (jd_text ui))) then
      show (st_error (py "Paste job description."))
    else
      client <- call (get_openai_client rt (api_key ui)) ;;
      result <- analyze_resume client resume_text (jd_text ui) ;;
      show_result result
  else ret tt.

(* ------------------------------------------------------------------ *)
(** ** The records of the specification *)

(** The three verdicts, as the prompt spells them. *)
Inductive Verdict : Type := StrongMatch | ModerateMatch | WeakMatch.

Record EvaluationResult : Type := {
  matchScore : Z;
  verdict : Verdict;
  summary : str;
  strengths : list str;
  gaps : list str;
  improvementSuggestions : list str;
  recommendedRoleLevel : str
}.

Record ParseFailure : Type := { rawResponseText : str }.

Definition verdict_of (s : str) : option Verdict :=
  if str_eqb s (py "Strong match") then Some StrongMatch
  else if str_eqb s (py "Moderate match") then Some ModerateMatch
  else if str_eqb s (py "Weak match") then Some WeakMatch
  else None.

Fixpoint strings_of (l : list value) : option (list str) :=
  match l with
  | [] => Some []
  | PyStr s :: rest => option_map (cons s) (strings_of rest)
  | _ :: _ => None
  end.

Definition string_field (d : list (str * value)) (key : string)
  : option str :=
  match dict_get d (py key) with
  | Some (PyStr s) => Some s
  | _ => None
  end.

Definition strings_field (d : list (str * value)) (key : string)
  : option (list str) :=
  match dict_get d (py key) with
  | Some (PyList l) => strings_of l
  | _ => None
  end.

(** Reading a returned record as the well-formed [EvaluationResult] of
    the specification: all seven fields present, each of its type, the
    verdict one of the three literals. *)
Definition as_EvaluationResult (v : value) : option EvaluationResult :=
  match v with
  | PyDict d =>
    match dict_get d (py "match_score"), string_field d "verdict",
          string_field d "summary", strings_field d "strengths",
          strings_field d "gaps", strings_field d "improvement_suggestions",
          string_field d "recommended_role_level" with
    | Some (PyInt score), Some v, Some sm, Some st, Some g, Some i, Some lvl =>
      match verdict_of v with
      | Some vd => Some {| matchScore := score; verdict := vd; summary := sm;
                           strengths := st; gaps := g;
                           improvementSuggestions := i;
                           recommendedRoleLevel := lvl |}
      | None => None
      end
    | _, _, _, _, _, _, _ => None
    end
  | _ => None
  end.

(** Reading a returned record as the [ParseFailure] of the
    specification, the way [main] tells it from a result: by its
    [error] key. *)
Definition as_ParseFailure (v : value) : option ParseFailure :=
  match v with
  | PyDict d =>
    match dict_get d (py "error"), dict_get d (py "raw") with
    | Some _, Some (PyStr raw) => Some {| rawResponseText := raw |}
    | _, _ => None
    end
  | _ => None
  end.

(* ------------------------------------------------------------------ *)
(** ** Runtimes and clients to evaluate the program on *)

(** A client that answers every request with one choice holding [body]. *)
Definition answering (body : str) : Client :=
  fun _ => Returns {| choices := [Some body] |}.

(** A stand-in for [PyPDF2.PdfReader] that knows one fact about PDF: a
    stream of zero bytes is not one ([EmptyFileError]).  Any other stream
    is read as a document without pages. *)
Definition empty_refusing_reader : stream_parser (list Page) :=
  fun b =>
    match b with
    | [] => (Raises (LibraryError "PyPDF2.errors.EmptyFileError"), 0%nat)
    | _ :: _ => (Returns [], List.length b)
    end.


(** A [docx.Document] that finds the given paragraphs in every stream. *)
Definition document_of (paragraphs : list str) : stream_parser (list str) :=
  fun b => (Returns paragraphs, 0%nat).

Definition runtime_with (reader : stream_parser (list Page))
  (document : stream_parser (list str)) (client : Client) : runtime :=
  {| PdfReader := Some reader; Document := Some document;
     OpenAI := fun _ => Returns client |}.

(** A page on which nothing was shown and a file nobody read yet. *)
Definition fresh : world := World 0 [].

(** The response body of the specification's example. *)
Definition example_body : str :=
  dq ("{'match_score': 82, 'verdict': 'Strong match', 'summary': '...', "
      ++ "'strengths': ['a'], 'gaps': ['b'], "
      ++ "'improvement_suggestions': ['c'], "
      ++ "'recommended_role_level': 'Mid-level'}").

(** A response body that is a JSON object and has an [error] key. *)
Definition error_shaped_body : str :=
  dq "{'error': 'Invalid JSON from model', 'raw': 'oops'}".

(** One run of the page: a two-byte plain-text resume, a job
    description, no key typed in, the button pressed. *)
Definition pressed : widgets :=
  {| api_key := [];
     uploaded_file := Some (Upload TEXT_PLAIN [x63; x76]);
     jd_text := py "dev";
     analyze_clicked := true |}.

Definition MODEL_ERROR : st_call :=
  st_error (py "Model error: Could not parse response").

Definition MATCH_SUMMARY : st_call :=
  st_subheader (0x1F4CA :: py " Match Summary").

(* ------------------------------------------------------------------ *)
(** ** When a third-party parser raises *)

Definition page_returns (p : Page) : bool :=
  match extract_text p with
  | Returns _ => true
  | Raises _ => false
  end.

(** Whether the library calls that [extract_text_from_file] makes for
    this document all return: the reader or [Document], when the declared
    type selects one and it is installed, and [extract_text] on every
    page.  No library is called for the other documents. *)
Definition parser_goes_through (rt : runtime) (doc : option UploadedFile)
  : bool :=
  match doc with
  | None => true
  | Some f =>
    if str_eqb (type f) APPLICATION_PDF then
      match PdfReader rt with
      | Some reader =>
        match fst (reader (getvalue f)) with
        | Returns pages => forallb page_returns pages
        | Raises _ => false
        end
      | None => true
      end
    else if str_eqb (type f) DOCX then
      match Document rt with
      | Some document =>
        match fst (document (getvalue f)) with
        | Returns _ => true
        | Raises _ => false
        end
      | None => true
      end
    else true
  end.

(** The diagnostics of the extractor. *)
Definition diagnostics : list st_call :=
  [ st_error (py "PyPDF2 missing. Add to requirements.txt");
    st_error (py "python-docx missing. Add to requirements.txt");
    st_warning (py "Unsupported file type") ].

(** A scan of [s] that did not run out of fuel and, when it returned,
    left less than it was given. *)
Definition consumes (r : outcome (value * str)) (s : str) : Prop :=
  r <> Raises RecursionError
  /\ forall (v : value) (rest : str),
       r = Returns (v, rest) -> (List.length rest < List.length s)%nat.

(** A computation that leaves the cursor alone and only adds calls to
    the page. *)
Definition appends {A} (m : Py A) : Prop :=
  forall w : world,
    exists shown : list st_call,
      snd (m w) = World (cursor w) (screen w ++ shown).

(* ------------------------------------------------------------------ *)
(** ** The page of [main], part by part *)

(** What [main] shows before it looks at the upload. *)
Definition PAGE_TOP : list st_call :=
  [ st_set_page_config (py "ResumeMatch AI") [0x1F4C4];
    st_title (0x1F4C4 :: py " ResumeMatch AI " ++ 0x2013
                :: py " Resume Screening Agent");
    st_write
      [Text (py "Upload resume + paste job description " ++ 0x2192
               :: py " get match score, strengths, gaps & suggestions.")];
    st_sidebar_header (0x2699 :: 0xFE0F :: py " Configuration");
    st_subheader (chr "1" :: 0xFE0F :: 0x20E3 :: py " Upload Resume") ].

(** What it shows between the upload and the button. *)
Definition PAGE_MIDDLE : list st_call :=
  [ st_subheader (chr "2" :: 0xFE0F :: 0x20E3 :: py " Paste Job Description");
    st_markdown [Text (py "---")] ].

Definition UPLOAD_FIRST : st_call := st_error (py "Upload resume first.").
Definition PASTE_FIRST : st_call := st_error (py "Paste job description.").

(** What a non-empty extraction adds to the page. *)
Definition extracted (resume_text : str) : list st_call :=
  [ st_success (py "Resume extracted.");
    st_text_area (py "Resume Text") resume_text ].

Definition STRENGTHS : st_call :=
  st_markdown [Text (py "### " ++ 0x2705 :: py " Strengths")].
Definition GAPS : st_call :=
  st_markdown [Text (py "### " ++ 0x26A0 :: 0xFE0F :: py " Gaps")].
Definition SUGGESTIONS : st_call :=
  st_markdown
    [Text (py "### " ++ 0x1F6E0 :: py " Suggestions to Improve Resume")].

(** One line of a bullet list. *)
Definition bullet (x : value) : st_call :=
  st_markdown [Text (py "- "); Format x].

(** A world with more on its page. *)
Definition showing (w : world) (calls : list st_call) : world :=
  World (cursor w) (screen w ++ calls).

(** A string of whitespace only, the empty one included. *)
Definition blank (s : str) : bool := forallb py_isspace s.

(** The separator [user_content] puts between the job description and
    the resume. *)
Definition RESUME_LABEL : str := LF ++ LF ++ py "RESUME:" ++ LF.

(** The same installation with another way to build the client. *)
Definition with_OpenAI (rt : runtime) (ctor : option str -> outcome Client)
  : runtime :=
  {| PdfReader := PdfReader rt; Document := Document rt; OpenAI := ctor |}.

(** A constructor and a client to stand for a service out of reach. *)
Definition unreachable : exn := LibraryError "openai.APIConnectionError".
Definition failing_client : Client := fun _ => Raises unreachable.

(** Runs of the page to evaluate [main] on. *)
Definition pressed_without_upload : widgets :=
  {| api_key := []; uploaded_file := None; jd_text := py "dev";
     analyze_clicked := true |}.

Definition pressed_with_blank_description : widgets :=
  {| api_key := [];
     uploaded_file := Some (Upload TEXT_PLAIN [x63; x76]);
     jd_text := [32; 10; 9];
     analyze_clicked := true |}.

Definition pressed_with_empty_pdf : widgets :=
  {| api_key := [];
     uploaded_file := Some (Upload APPLICATION_PDF []);
     jd_text := py "dev";
     analyze_clicked := true |}.

(* ------------------------------------------------------------------ *)
(** ** Strings *)

Lemma str_eqb_refl (a : str) : str_eqb a a = true.
Proof.
  induction a as [|x a IH]; simpl; [reflexivity|].
  now rewrite N.eqb_refl.
Qed.

Lemma str_eqb_eq (a b : str) : str_eqb a b = true <-> a = b.
Proof.
  split.
  - revert b; induction a as [|x a IH]; intros [|y b]; simpl;
      try discriminate; [reflexivity|].
    intros H. apply andb_prop in H as [Hx Hab].
    apply N.eqb_eq in Hx. now rewrite Hx, (IH b Hab).
  - intros ->. apply str_eqb_refl.
Qed.

Lemma str_eqb_neq (a b : str) : a <> b -> str_eqb a b = false.
Proof.
  intros H. destruct (str_eqb a b) eqn:E; [|reflexivity].
  now apply str_eqb_eq in E.
Qed.


(* ------------------------------------------------------------------ *)
(** ** The extractor, branch by branch *)

Section Extractor.

Variable rt : runtime.

Lemma extract_absent (w : world) :
  extract_text_from_file rt None w = (Returns [], w).
Proof. reflexivity. Qed.

Lemma extract_plain (f : UploadedFile) (w : world) :
  type f = TEXT_PLAIN ->
  extract_text_from_file rt (Some f) w =
    (Returns (utf8_decode_ignore (skipn (cursor w) (getvalue f))),
     World (Nat.max (cursor w) (List.length (getvalue f))) (screen w)).
Proof.
  intros Ht. unfold extract_text_from_file.
  now rewrite Ht, str_eqb_refl.
Qed.

Lemma extract_pdf (f : UploadedFile) (w : world) :
  type f = APPLICATION_PDF ->
  extract_text_from_file rt (Some f) w =
    match PdfReader rt with
    | None =>
      (Returns [],
       World (cursor w)
         (screen w ++ [st_error (py "PyPDF2 missing. Add to requirements.txt")]))
    | Some reader =>
      match reader (getvalue f) with
      | (Returns pages, c) => for_pages pages [] (World c (screen w))
      | (Raises e, c) => (Raises e, World c (screen w))
      end
    end.
Proof.
  intros Ht. unfold extract_text_from_file. rewrite Ht.
  change (str_eqb APPLICATION_PDF TEXT_PLAIN) with false.
  rewrite str_eqb_refl. cbv iota.
  destruct (PdfReader rt) as [reader|]; [|reflexivity].
  unfold bind, open_with.
  now destruct (reader (getvalue f)) as [[pages|e] c].
Qed.

Lemma extract_docx (f : UploadedFile) (w : world) :
  type f = DOCX ->
  extract_text_from_file rt (Some f) w =
    match Document rt with
    | None =>
      (Returns [],
       World (cursor w)
         (screen w
            ++ [st_error (py "python-docx missing. Add to requirements.txt")]))
    | Some document =>
      match document (getvalue f) with
      | (Returns paragraphs, c) =>
        (Returns (join LF paragraphs), World c (screen w))
      | (Raises e, c) => (Raises e, World c (screen w))
      end
    end.
Proof.
  intros Ht. unfold extract_text_from_file. rewrite Ht.
  change (str_eqb DOCX TEXT_PLAIN) with false.
  change (str_eqb DOCX APPLICATION_PDF) with false.
  rewrite str_eqb_refl. cbv iota.
  destruct (Document rt) as [document|]; [|reflexivity].
  unfold bind, open_with.
  now destruct (document (getvalue f)) as [[paragraphs|e] c].
Qed.

Lemma extract_unsupported (f : UploadedFile) (w : world) :
  ~ In (type f) [TEXT_PLAIN; APPLICATION_PDF; DOCX] ->
  extract_text_from_file rt (Some f) w =
    (Returns [],
     World (cursor w) (screen w ++ [st_warning (py "Unsupported file type")])).
Proof.
  intros Hn. unfold extract_text_from_file.
  rewrite !str_eqb_neq; [reflexivity | | |];
    intros E; apply Hn; rewrite E; simpl; auto.
Qed.

(** The four ways the declared type can fall. *)
Lemma type_cases (f : UploadedFile) :
  type f = TEXT_PLAIN \/ type f = APPLICATION_PDF \/ type f = DOCX
  \/ ~ In (type f) [TEXT_PLAIN; APPLICATION_PDF; DOCX].
Proof.
  destruct (str_eqb (type f) TEXT_PLAIN) eqn:E1;
    [left; now apply str_eqb_eq|].
  destruct (str_eqb (type f) APPLICATION_PDF) eqn:E2;
    [right; left; now apply str_eqb_eq|].
  destruct (str_eqb (type f) DOCX) eqn:E3;
    [right; right; left; now apply str_eqb_eq|].
  right; right; right. simpl. intros [H|[H|[H|[]]]];
    symmetry in H; apply str_eqb_eq in H; congruence.
Qed.

End Extractor.


(** The page loop stops at the first page that raises. *)
Lemma for_pages_raises (pages : list Page) :
  forall (acc : str) (w : world),
    (exists text, for_pages pages acc w = (Returns text, w))
    \/ (exists e, for_pages pages acc w = (Raises e, w)
                  /\ In (Raises e) (map extract_text pages)).
Proof.
  induction pages as [|page pages IH]; intros acc w; simpl.
  - left. now exists acc.
  - unfold bind, call. destruct (extract_text page) as [t|e] eqn:E.
    + destruct (IH (acc ++ or_empty t) w) as [[text H]|[e [H Hin]]].
      * left. now exists text.
      * right. exists e. split; [assumption | now right].
    + right. exists e. split; [reflexivity | now left].
Qed.

(** The page loop leaves the world alone. *)
Lemma for_pages_world (pages : list Page) :
  forall (acc : str) (w : world),
    for_pages pages acc w = (fst (for_pages pages acc fresh), w).
Proof.
  induction pages as [|page pages IH]; intros acc w; simpl; [reflexivity|].
  unfold bind, call.
  destruct (extract_text page) as [t|e]; [|reflexivity].
  rewrite (IH _ w), (IH _ fresh). reflexivity.
Qed.

Lemma for_pages_returns_iff (pages : list Page) :
  forall (acc : str) (w : world),
    (exists text, fst (for_pages pages acc w) = Returns text)
    <-> forallb page_returns pages = true.
Proof.
  induction pages as [|page pages IH]; intros acc w; simpl.
  - split; [reflexivity | now exists acc].
  - unfold bind, call, page_returns.
    destruct (extract_text page) as [t|e]; simpl.
    + apply IH.
    + split; [intros [text H]; discriminate | discriminate].
Qed.

(** Reading from a cursor at or past the end gives no bytes. *)
Lemma skipn_past_end {A} (l : list A) (n : nat) :
  (List.length l <= n)%nat -> skipn n l = [].
Proof. apply skipn_all2. Qed.

(* ------------------------------------------------------------------ *)
(** ** Properties of [extract_text_from_file] *)

(** C9: when no document is supplied ([None]), the extractor returns the
    empty string at once and shows nothing, cursor and page being left as
    they were; an uploaded file of an unsupported type leaves a
    different page behind, so the two states can be told apart. *)
Theorem extract_absent_is_silent (rt : runtime) (w : world) :
  extract_text_from_file rt None w = (Returns [], w)
  /\ forall f : UploadedFile,
       ~ In (type f) [TEXT_PLAIN; APPLICATION_PDF; DOCX] ->
       screen (snd (extract_text_from_file rt (Some f) w))
       <> screen (snd (extract_text_from_file rt None w)).
Proof.
  split; [reflexivity|].
  intros f Hf. rewrite (extract_unsupported rt f w Hf). simpl.
  intros E. apply (f_equal (@List.length st_call)) in E.
  rewrite length_app in E. simpl in E. lia.
Qed.

Lemma extract_absent_is_silent_witness :
  extract_text_from_file
    (runtime_with empty_refusing_reader (document_of []) (answering []))
    None fresh = (Returns [], fresh)
  /\ screen (snd (extract_text_from_file
                    (runtime_with empty_refusing_reader (document_of [])
                       (answering []))
                    (Some (Upload (py "image/png") [x89; x50])) fresh))
     <> screen (snd (extract_text_from_file
                       (runtime_with empty_refusing_reader (document_of [])
                          (answering []))
                       None fresh)).
Proof.
  pose proof (extract_absent_is_silent
                (runtime_with empty_refusing_reader (document_of [])
                   (answering [])) fresh) as [H1 H2].
  split; [exact H1|].
  apply (H2 (Upload (py "image/png") [x89; x50])).
  simpl. intros [H|[H|[H|[]]]]; discriminate H.
Defined.

(** C8: for a declared type other than [text/plain], [application/pdf]
    and the word-processing type, the extractor returns the empty string
    and adds exactly one call to the page, the warning
    [Unsupported file type]. *)
Theorem extract_unsupported_warns_once
  (rt : runtime) (f : UploadedFile) (w : world) :
  ~ In (type f) [TEXT_PLAIN; APPLICATION_PDF; DOCX] ->
  extract_text_from_file rt (Some f) w =
    (Returns [],
     World (cursor w) (screen w ++ [st_warning (py "Unsupported file type")]))
  /\ List.length (screen (snd (extract_text_from_file rt (Some f) w)))
     = S (List.length (screen w)).
Proof.
  intros Hf. rewrite (extract_unsupported rt f w Hf). split; [reflexivity|].
  simpl. rewrite length_app. simpl. lia.
Qed.

Lemma extract_unsupported_warns_once_witness :
  extract_text_from_file
    (runtime_with empty_refusing_reader (document_of []) (answering []))
    (Some (Upload (py "image/png") [x89; x50])) fresh
  = (Returns [], World 0 [st_warning (py "Unsupported file type")]).
Proof.
  refine (proj1 (extract_unsupported_warns_once
                   (runtime_with empty_refusing_reader (document_of [])
                      (answering []))
                   (Upload (py "image/png") [x89; x50]) fresh _)).
  simpl. intros [H|[H|[H|[]]]]; discriminate H.
Defined.





(** C1, as the code has it: the extractor returns a string, having shown
    at most one of its three diagnostics, exactly when every library
    call it makes for the document returns; when the PDF reader,
    [docx.Document] or a page's [extract_text] raises, the exception
    leaves the extractor. *)
Theorem extract_returns_unless_parser_raises
  (rt : runtime) (doc : option UploadedFile) (w : world) :
  if parser_goes_through rt doc
  then exists (text : str) (c : nat) (shown : list st_call),
         extract_text_from_file rt doc w
         = (Returns text, World c (screen w ++ shown))
         /\ (shown = [] \/ exists d, shown = [d] /\ In d diagnostics)
  else exists e : exn, fst (extract_text_from_file rt doc w) = Raises e.
Proof.
  destruct doc as [f|]; simpl parser_goes_through.
  2:{ exists [], (cursor w), []. rewrite app_nil_r. destruct w.
      split; [reflexivity | now left]. }
  destruct (type_cases f) as [Ht|[Ht|[Ht|Ht]]].
  - rewrite Ht. change (str_eqb TEXT_PLAIN APPLICATION_PDF) with false.
    change (str_eqb TEXT_PLAIN DOCX) with false. cbv iota.
    rewrite (extract_plain rt f w Ht).
    eexists _, _, []. rewrite app_nil_r. split; [reflexivity | now left].
  - rewrite (extract_pdf rt f w Ht), Ht, str_eqb_refl.
    destruct (PdfReader rt) as [reader|].
    + destruct (reader (getvalue f)) as [[pages|e] c]; simpl.
      * rewrite for_pages_world.
        destruct (forallb page_returns pages) eqn:E.
        -- apply (for_pages_returns_iff pages [] fresh) in E as [text E].
           exists text, c, []. rewrite E, app_nil_r.
           split; [reflexivity | now left].
        -- destruct (fst (for_pages pages [] fresh)) as [text|e] eqn:E'.
           ++ assert (forallb page_returns pages = true) as E2
                by (apply (for_pages_returns_iff pages [] fresh);
                    now exists text).
              congruence.
           ++ now exists e.
      * now exists e.
    + eexists [], (cursor w), [_]. split; [reflexivity|].
      right. eexists. split; [reflexivity|]. simpl. auto.
  - rewrite (extract_docx rt f w Ht), Ht, str_eqb_refl.
    change (str_eqb DOCX APPLICATION_PDF) with false. cbv iota.
    destruct (Document rt) as [document|].
    + destruct (document (getvalue f)) as [[paragraphs|e] c]; simpl.
      * eexists _, c, []. rewrite app_nil_r. split; [reflexivity | now left].
      * now exists e.
    + eexists [], (cursor w), [_]. split; [reflexivity|].
      right. eexists. split; [reflexivity|]. simpl. auto.
  - rewrite (extract_unsupported rt f w Ht).
    rewrite !str_eqb_neq;
      try (intros E; apply Ht; rewrite E; simpl; now auto).
    eexists [], (cursor w), [_]. split; [reflexivity|].
    right. eexists. split; [reflexivity|]. simpl. auto.
Qed.

(** C1, as the claim states it, fails: PyPDF2 refuses a stream of zero
    bytes, and with such a reader the extractor raises on an empty file
    declared as PDF. *)
Lemma extract_raises_on_empty_pdf :
  fst (extract_text_from_file
         (runtime_with empty_refusing_reader (document_of []) (answering []))
         (Some (Upload APPLICATION_PDF [])) fresh)
  = Raises (LibraryError "PyPDF2.errors.EmptyFileError")
  /\ ~ (forall (rt : runtime) (doc : option UploadedFile) (w : world),
          exists text : str,
            fst (extract_text_from_file rt doc w) = Returns text).
Proof.
  split; [reflexivity|].
  intros H.
  destruct (H (runtime_with empty_refusing_reader (document_of [])
                 (answering []))
              (Some (Upload APPLICATION_PDF [])) fresh) as [text E].
  discriminate E.
Qed.

(** What the extractor returns depends on the declared type, the bytes
    and the cursor of the file object, not on the page. *)
Lemma extract_result_ignores_page
  (rt : runtime) (doc : option UploadedFile) (c : nat)
  (shown shown' : list st_call) :
  fst (extract_text_from_file rt doc (World c shown))
  = fst (extract_text_from_file rt doc (World c shown')).
Proof.
  destruct doc as [f|]; [|reflexivity].
  destruct (type_cases f) as [Ht|[Ht|[Ht|Ht]]].
  - now rewrite !(extract_plain rt f _ Ht).
  - rewrite !(extract_pdf rt f _ Ht).
    destruct (PdfReader rt) as [reader|]; [|reflexivity].
    destruct (reader (getvalue f)) as [[pages|e] c']; [|reflexivity].
    rewrite (for_pages_world pages [] (World c' _)).
    now rewrite (for_pages_world pages [] (World c' (screen (World c shown')))).
  - rewrite !(extract_docx rt f _ Ht).
    destruct (Document rt) as [document|]; [|reflexivity].
    now destruct (document (getvalue f)) as [[paragraphs|e] c'].
  - now rewrite !(extract_unsupported rt f _ Ht).
Qed.

(** C4, as the code has it: what the extractor returns is a function of
    the declared type, the bytes and the cursor of the file object.  A
    second call on the same file object shows what the first call
    showed; it returns what the first call returned (the same text or
    the same exception) for every document but a plain-text one, whose
    bytes the first call has consumed: there the second call returns the
    empty string. *)
Theorem extract_twice (rt : runtime) (doc : option UploadedFile) (w : world) :
  let first := extract_text_from_file rt doc w in
  let second := extract_text_from_file rt doc (snd first) in
  (forall shown : list st_call,
      fst (extract_text_from_file rt doc (World (cursor w) shown))
      = fst first)
  /\ (exists shown : list st_call,
         screen (snd first) = screen w ++ shown
         /\ screen (snd second) = screen (snd first) ++ shown)
  /\ match doc with
     | Some f =>
       if str_eqb (type f) TEXT_PLAIN
       then fst first
            = Returns (utf8_decode_ignore (skipn (cursor w) (getvalue f)))
            /\ fst second = Returns []
       else fst second = fst first
     | None => fst second = fst first
     end.
Proof.
  cbv zeta. split.
  { intros shown. destruct w as [c shown0].
    apply extract_result_ignores_page. }
  destruct doc as [f|].
  2:{ simpl. split; [|reflexivity]. exists []. now rewrite app_nil_r. }
  destruct (type_cases f) as [Ht|[Ht|[Ht|Ht]]].
  - rewrite !(extract_plain rt f _ Ht), Ht, str_eqb_refl. simpl.
    split; [exists []; now rewrite !app_nil_r|].
    split; [reflexivity|].
    rewrite skipn_past_end; [reflexivity | apply Nat.le_max_r].
  - rewrite !(extract_pdf rt f _ Ht), Ht.
    change (str_eqb APPLICATION_PDF TEXT_PLAIN) with false. cbv iota.
    destruct (PdfReader rt) as [reader|].
    + destruct (reader (getvalue f)) as [[pages|e] c]; simpl.
      * rewrite (for_pages_world pages [] (World c (screen w))). simpl.
        rewrite (for_pages_world pages [] (World c (screen w))). simpl.
        split; [exists []; now rewrite !app_nil_r | reflexivity].
      * split; [exists []; now rewrite !app_nil_r | reflexivity].
    + simpl. split; [eexists; split; reflexivity | reflexivity].
  - rewrite !(extract_docx rt f _ Ht), Ht.
    change (str_eqb DOCX TEXT_PLAIN) with false. cbv iota.
    destruct (Document rt) as [document|].
    + destruct (document (getvalue f)) as [[paragraphs|e] c]; simpl;
        (split; [exists []; now rewrite !app_nil_r | reflexivity]).
    + simpl. split; [eexists; split; reflexivity | reflexivity].
  - rewrite !(extract_unsupported rt f _ Ht). simpl.
    rewrite (str_eqb_neq (type f) TEXT_PLAIN)
      by (intros E; apply Ht; rewrite E; simpl; now auto).
    split; [eexists; split; reflexivity | reflexivity].
Qed.

(** C4, as the claim states it, fails: [read()] leaves the cursor of the
    file object at the end, so the second of two calls on the same
    plain-text upload finds nothing left to read. *)
Lemma plain_text_second_call_differs :
  let rt := runtime_with empty_refusing_reader (document_of [])
              (answering []) in
  let f := Upload TEXT_PLAIN [x68; x69] in
  let first := extract_text_from_file rt (Some f) fresh in
  let second := extract_text_from_file rt (Some f) (snd first) in
  fst first = Returns (py "hi") /\ fst second = Returns []
  /\ fst first <> fst second.
Proof.
  cbv zeta. split; [reflexivity|]. split; [reflexivity|]. discriminate.
Qed.

(* ------------------------------------------------------------------ *)
(** ** The UTF-8 decoder *)

#[local] Ltac Zify.zify_post_hook ::= Z.to_euclidean_division_equations.

Lemma to_N_byte_of_N (n : N) : n < 256 -> Byte.to_N (byte_of_N n) = n.
Proof.
  intros H. unfold byte_of_N.
  destruct (Byte.of_N n) as [b|] eqn:E.
  - now apply Byte.to_of_N.
  - apply Byte.of_N_None_iff in E. lia.
Qed.

Lemma byte_of_N_to_N (b : byte) : byte_of_N (Byte.to_N b) = b.
Proof. unfold byte_of_N. now rewrite Byte.of_to_N. Qed.

Lemma to_N_lt_256 (b : byte) : Byte.to_N b < 256.
Proof. pose proof (Byte.to_N_bounded b). lia. Qed.

Lemma decode_1 (b : byte) (s : bytes) :
  Byte.to_N b < 0x80 ->
  utf8_decode_ignore (b :: s) = Byte.to_N b :: utf8_decode_ignore s.
Proof.
  intros H. cbn [utf8_decode_ignore].
  apply N.ltb_lt in H. rewrite H. reflexivity.
Qed.

(** Rewrites the comparisons that arithmetic settles. *)
Ltac settle :=
  repeat match goal with
         | |- context [N.ltb ?a ?b] =>
           first [ rewrite (proj2 (N.ltb_lt a b)) by lia
                 | rewrite (proj2 (N.ltb_ge a b)) by lia ]
         | |- context [N.leb ?a ?b] =>
           first [ rewrite (proj2 (N.leb_le a b)) by lia
                 | rewrite (proj2 (N.leb_gt a b)) by lia ]
         | |- context [N.eqb ?a ?b] =>
           first [ rewrite (proj2 (N.eqb_eq a b)) by lia
                 | rewrite (proj2 (N.eqb_neq a b)) by lia ]
         end;
  cbn [negb andb orb].

Lemma decode_2 (b0 b1 : byte) (s : bytes) :
  0xC2 <= Byte.to_N b0 < 0xE0 ->
  0x80 <= Byte.to_N b1 < 0xC0 ->
  utf8_decode_ignore (b0 :: b1 :: s)
  = (Byte.to_N b0 * 64 + Byte.to_N b1 - 0x3080) :: utf8_decode_ignore s.
Proof.
  intros H0 H1. cbn [utf8_decode_ignore]. unfold is_continuation.
  generalize dependent (Byte.to_N b0). generalize dependent (Byte.to_N b1).
  intros ch2 H1 ch H0.
  settle. reflexivity.
Qed.

Lemma decode_3 (b0 b1 b2 : byte) (s : bytes) :
  0xE0 <= Byte.to_N b0 < 0xF0 ->
  0x80 <= Byte.to_N b1 < 0xC0 ->
  (Byte.to_N b0 = 0xE0 -> 0xA0 <= Byte.to_N b1) ->
  (Byte.to_N b0 = 0xED -> Byte.to_N b1 < 0xA0) ->
  0x80 <= Byte.to_N b2 < 0xC0 ->
  utf8_decode_ignore (b0 :: b1 :: b2 :: s)
  = (Byte.to_N b0 * 4096 + Byte.to_N b1 * 64 + Byte.to_N b2 - 0xE2080)
      :: utf8_decode_ignore s.
Proof.
  intros H0 H1 Ha Hb H2. cbn [utf8_decode_ignore]. unfold is_continuation.
  generalize dependent (Byte.to_N b0). generalize dependent (Byte.to_N b1).
  generalize dependent (Byte.to_N b2).
  intros ch3 H2 ch2 H1 ch H0 Ha Hb.
  settle.
  destruct (N.ltb_spec ch2 0xA0); settle; reflexivity.
Qed.

Lemma decode_4 (b0 b1 b2 b3 : byte) (s : bytes) :
  0xF0 <= Byte.to_N b0 < 0xF5 ->
  0x80 <= Byte.to_N b1 < 0xC0 ->
  (Byte.to_N b0 = 0xF0 -> 0x90 <= Byte.to_N b1) ->
  (Byte.to_N b0 = 0xF4 -> Byte.to_N b1 < 0x90) ->
  0x80 <= Byte.to_N b2 < 0xC0 ->
  0x80 <= Byte.to_N b3 < 0xC0 ->
  utf8_decode_ignore (b0 :: b1 :: b2 :: b3 :: s)
  = (Byte.to_N b0 * 262144 + Byte.to_N b1 * 4096 + Byte.to_N b2 * 64
     + Byte.to_N b3 - 0x3C82080) :: utf8_decode_ignore s.
Proof.
  intros H0 H1 Ha Hb H2 H3. cbn [utf8_decode_ignore]. unfold is_continuation.
  generalize dependent (Byte.to_N b0). generalize dependent (Byte.to_N b1).
  generalize dependent (Byte.to_N b2). generalize dependent (Byte.to_N b3).
  intros ch4 H3 ch3 H2 ch2 H1 ch H0 Ha Hb.
  settle.
  destruct (N.ltb_spec ch2 0x90); settle; reflexivity.
Qed.

Lemma is_scalar_range (c : N) :
  is_scalar c = true <-> c < 0xD800 \/ 0xE000 <= c < 0x110000.
Proof.
  unfold is_scalar.
  rewrite orb_true_iff, andb_true_iff, !N.ltb_lt, N.leb_le. tauto.
Qed.

Lemma decode_encode_char (c : N) (rest : bytes) :
  is_scalar c = true ->
  utf8_decode_ignore (utf8_encode_char c ++ rest)
  = c :: utf8_decode_ignore rest.
Proof.
  intros Hc. apply is_scalar_range in Hc. unfold utf8_encode_char.
  destruct (N.ltb_spec c 0x80);
    [|destruct (N.ltb_spec c 0x800); [|destruct (N.ltb_spec c 0x10000)]];
    cbn [app].
  - rewrite decode_1; rewrite to_N_byte_of_N by lia; [reflexivity | lia].
  - rewrite decode_2; rewrite ?to_N_byte_of_N by lia;
      [f_equal; lia | lia | lia].
  - rewrite decode_3; rewrite ?to_N_byte_of_N by lia;
      [f_equal; lia | lia ..].
  - rewrite decode_4; rewrite ?to_N_byte_of_N by lia;
      [f_equal; lia | lia ..].
Qed.

Lemma decode_encode (s : str) :
  forallb is_scalar s = true -> utf8_decode_ignore (utf8_encode s) = s.
Proof.
  induction s as [|c s IH]; [reflexivity|].
  cbn [forallb utf8_encode flat_map]. intros H.
  apply andb_prop in H as [Hc Hs].
  rewrite (decode_encode_char c _ Hc). f_equal. now apply IH.
Qed.

(** Reasoning by cases on what the decoder does at the head of its
    input: it decodes a well-formed sequence of one to four bytes, or it
    drops a byte. *)
Section DecoderCases.

Variable P : bytes -> str -> Prop.

Hypothesis P_end : P [] [].
Hypothesis P_drop : forall b s r, P s r -> P (b :: s) r.
Hypothesis P_1 : forall b s r,
    Byte.to_N b < 0x80 -> P s r -> P (b :: s) (Byte.to_N b :: r).
Hypothesis P_2 : forall b0 b1 s r,
    0xC2 <= Byte.to_N b0 < 0xE0 ->
    0x80 <= Byte.to_N b1 < 0xC0 ->
    P s r ->
    P (b0 :: b1 :: s) (Byte.to_N b0 * 64 + Byte.to_N b1 - 0x3080 :: r).
Hypothesis P_3 : forall b0 b1 b2 s r,
    0xE0 <= Byte.to_N b0 < 0xF0 ->
    0x80 <= Byte.to_N b1 < 0xC0 ->
    (Byte.to_N b0 = 0xE0 -> 0xA0 <= Byte.to_N b1) ->
    (Byte.to_N b0 = 0xED -> Byte.to_N b1 < 0xA0) ->
    0x80 <= Byte.to_N b2 < 0xC0 ->
    P s r ->
    P (b0 :: b1 :: b2 :: s)
      (Byte.to_N b0 * 4096 + Byte.to_N b1 * 64 + Byte.to_N b2 - 0xE2080
         :: r).
Hypothesis P_4 : forall b0 b1 b2 b3 s r,
    0xF0 <= Byte.to_N b0 < 0xF5 ->
    0x80 <= Byte.to_N b1 < 0xC0 ->
    (Byte.to_N b0 = 0xF0 -> 0x90 <= Byte.to_N b1) ->
    (Byte.to_N b0 = 0xF4 -> Byte.to_N b1 < 0x90) ->
    0x80 <= Byte.to_N b2 < 0xC0 ->
    0x80 <= Byte.to_N b3 < 0xC0 ->
    P s r ->
    P (b0 :: b1 :: b2 :: b3 :: s)
      (Byte.to_N b0 * 262144 + Byte.to_N b1 * 4096 + Byte.to_N b2 * 64
       + Byte.to_N b3 - 0x3C82080 :: r).

Lemma P_drop_all (s : bytes) : P s [].
Proof. induction s; auto. Qed.

Lemma continuation_spec (c : N) :
  BoolSpec (0x80 <= c < 0xC0) (c < 0x80 \/ 0xC0 <= c) (is_continuation c).
Proof.
  unfold is_continuation.
  destruct (N.leb_spec 0x80 c), (N.ltb_spec c 0xC0); constructor; lia.
Qed.

Lemma decode_cases_bounded (n : nat) :
  forall s : bytes, (List.length s <= n)%nat -> P s (utf8_decode_ignore s).
Proof.
  induction n as [|n IH]; intros [|b0 s1] Hn; try exact P_end;
    cbn [List.length] in Hn; [lia|].
  assert (IH1 : P s1 (utf8_decode_ignore s1)) by (apply IH; lia).
  cbn [utf8_decode_ignore].
  destruct (N.ltb_spec (Byte.to_N b0) 0x80); [now apply P_1|].
  destruct (N.ltb_spec (Byte.to_N b0) 0xC2); [now apply P_drop|].
  destruct (N.ltb_spec (Byte.to_N b0) 0xE0).
  { destruct s1 as [|b1 s2]; [apply P_drop_all|].
    destruct (continuation_spec (Byte.to_N b1)); [|now apply P_drop].
    apply P_2; try lia. apply IH. cbn [List.length] in Hn |- *. lia. }
  destruct (N.ltb_spec (Byte.to_N b0) 0xF0).
  { destruct s1 as [|b1 s2]; [apply P_drop_all|].
    destruct (continuation_spec (Byte.to_N b1)); cbn [negb orb];
      [|now apply P_drop].
    destruct (N.ltb_spec (Byte.to_N b1) 0xA0);
      [destruct (N.eqb_spec (Byte.to_N b0) 0xE0)
      |destruct (N.eqb_spec (Byte.to_N b0) 0xED)];
      try (now apply P_drop).
    all: destruct s2 as [|b2 s3]; [apply P_drop_all|].
    all: destruct (continuation_spec (Byte.to_N b2));
      [|apply P_drop, P_drop, IH; cbn [List.length] in Hn |- *; lia].
    all: apply P_3; try lia; apply IH; cbn [List.length] in Hn |- *; lia. }
  destruct (N.ltb_spec (Byte.to_N b0) 0xF5); [|now apply P_drop].
  destruct s1 as [|b1 s2]; [apply P_drop_all|].
  destruct (continuation_spec (Byte.to_N b1)); cbn [negb orb];
    [|now apply P_drop].
  destruct (N.ltb_spec (Byte.to_N b1) 0x90);
    [destruct (N.eqb_spec (Byte.to_N b0) 0xF0)
    |destruct (N.eqb_spec (Byte.to_N b0) 0xF4)];
    try (now apply P_drop).
  all: destruct s2 as [|b2 s3]; [apply P_drop_all|].
  all: destruct (continuation_spec (Byte.to_N b2)); cbn [negb];
    [|apply P_drop, P_drop, IH; cbn [List.length] in Hn |- *; lia].
  all: destruct s3 as [|b3 s4]; [apply P_drop_all|].
  all: destruct (continuation_spec (Byte.to_N b3));
    [|apply P_drop, P_drop, P_drop, IH; cbn [List.length] in Hn |- *; lia].
  all: apply P_4; try lia; apply IH; cbn [List.length] in Hn |- *; lia.
Qed.

Lemma decode_cases (s : bytes) : P s (utf8_decode_ignore s).
Proof. apply (decode_cases_bounded (List.length s)). lia. Qed.

End DecoderCases.

Lemma decode_scalar (s : bytes) :
  forallb is_scalar (utf8_decode_ignore s) = true.
Proof.
  apply (decode_cases (fun _ r => forallb is_scalar r = true));
    try reflexivity; try (intros; assumption);
    intros; cbn [forallb]; apply andb_true_intro; (split; [|assumption]);
    apply is_scalar_range; lia.
Qed.

Lemma byte_of_N_eq (n : N) (b : byte) : n = Byte.to_N b -> byte_of_N n = b.
Proof. intros ->. apply byte_of_N_to_N. Qed.

(** Closes an equation between an encoding and the bytes it came from. *)
Ltac same_bytes :=
  repeat first [ apply byte_of_N_eq; lia | reflexivity | f_equal ].

Lemma encode_char_1 (b : byte) :
  Byte.to_N b < 0x80 -> utf8_encode_char (Byte.to_N b) = [b].
Proof. intros H. unfold utf8_encode_char. settle. same_bytes. Qed.

Lemma encode_char_2 (b0 b1 : byte) :
  0xC2 <= Byte.to_N b0 < 0xE0 ->
  0x80 <= Byte.to_N b1 < 0xC0 ->
  utf8_encode_char (Byte.to_N b0 * 64 + Byte.to_N b1 - 0x3080) = [b0; b1].
Proof. intros H0 H1. unfold utf8_encode_char. settle. same_bytes. Qed.

Lemma encode_char_3 (b0 b1 b2 : byte) :
  0xE0 <= Byte.to_N b0 < 0xF0 ->
  0x80 <= Byte.to_N b1 < 0xC0 ->
  (Byte.to_N b0 = 0xE0 -> 0xA0 <= Byte.to_N b1) ->
  0x80 <= Byte.to_N b2 < 0xC0 ->
  utf8_encode_char
    (Byte.to_N b0 * 4096 + Byte.to_N b1 * 64 + Byte.to_N b2 - 0xE2080)
  = [b0; b1; b2].
Proof.
  intros H0 H1 Ha H2. unfold utf8_encode_char. settle. same_bytes.
Qed.

Lemma encode_char_4 (b0 b1 b2 b3 : byte) :
  0xF0 <= Byte.to_N b0 < 0xF5 ->
  0x80 <= Byte.to_N b1 < 0xC0 ->
  (Byte.to_N b0 = 0xF0 -> 0x90 <= Byte.to_N b1) ->
  0x80 <= Byte.to_N b2 < 0xC0 ->
  0x80 <= Byte.to_N b3 < 0xC0 ->
  utf8_encode_char
    (Byte.to_N b0 * 262144 + Byte.to_N b1 * 4096 + Byte.to_N b2 * 64
     + Byte.to_N b3 - 0x3C82080)
  = [b0; b1; b2; b3].
Proof.
  intros H0 H1 Ha H2 H3. unfold utf8_encode_char. settle. same_bytes.
Qed.

Lemma decode_subseq (s : bytes) :
  subseq (utf8_encode (utf8_decode_ignore s)) s.
Proof.
  apply (decode_cases (fun s r => subseq (utf8_encode r) s)).
  - constructor.
  - intros. now constructor.
  - intros b s' r H Hr. cbn [utf8_encode flat_map].
    rewrite encode_char_1 by assumption. now constructor.
  - intros b0 b1 s' r H0 H1 Hr. cbn [utf8_encode flat_map].
    rewrite encode_char_2 by assumption. now repeat constructor.
  - intros b0 b1 b2 s' r H0 H1 Ha Hb H2 Hr. cbn [utf8_encode flat_map].
    rewrite encode_char_3 by assumption. now repeat constructor.
  - intros b0 b1 b2 b3 s' r H0 H1 Ha Hb H2 H3 Hr.
    cbn [utf8_encode flat_map].
    rewrite encode_char_4 by assumption. now repeat constructor.
Qed.

(** C7: on a file declared [text/plain] the extractor returns, without
    raising and without showing anything, the UTF-8 decoding of the
    payload with the malformed bytes dropped: the text holds Unicode
    scalar values only, its encoding is what is left of the payload once
    some bytes are dropped, and a payload that is the UTF-8 encoding of a
    text decodes to that text. *)
Theorem extract_plain_text_decodes
  (rt : runtime) (payload : bytes) (shown : list st_call) :
  extract_text_from_file rt (Some (Upload TEXT_PLAIN payload)) (World 0 shown)
  = (Returns (utf8_decode_ignore payload),
     World (List.length payload) shown)
  /\ forallb is_scalar (utf8_decode_ignore payload) = true
  /\ subseq (utf8_encode (utf8_decode_ignore payload)) payload
  /\ (forall s : str,
         forallb is_scalar s = true ->
         payload = utf8_encode s ->
         utf8_decode_ignore payload = s).
Proof.
  split; [|split; [|split]].
  - rewrite extract_plain by reflexivity. reflexivity.
  - apply decode_scalar.
  - apply decode_subseq.
  - intros s Hs ->. now apply decode_encode.
Qed.

Lemma extract_plain_text_decodes_witness :
  extract_text_from_file
    (runtime_with empty_refusing_reader (document_of []) (answering []))
    (Some (Upload TEXT_PLAIN [x68; xff; xc3; xa9; xe4; xb8])) fresh
  = (Returns [0x68; 0xE9], World 6 [])
  /\ utf8_decode_ignore [x68; xc3; xa9; xf0; x9f; x98; x80]
     = [0x68; 0xE9; 0x1F600].
Proof.
  split.
  - exact (proj1 (extract_plain_text_decodes
                    (runtime_with empty_refusing_reader (document_of [])
                       (answering []))
                    [x68; xff; xc3; xa9; xe4; xb8] [])).
  - exact (proj2 (proj2 (proj2 (extract_plain_text_decodes
                    (runtime_with empty_refusing_reader (document_of [])
                       (answering []))
                    [x68; xc3; xa9; xf0; x9f; x98; x80] [])))
             [0x68; 0xE9; 0x1F600] eq_refl eq_refl).
Defined.

(* ------------------------------------------------------------------ *)
(** ** [analyze_resume] *)

Section Analysis.

Variables (client : Client) (resume_text jd_text : str).
Variables (response : ChatCompletion) (content : option str).
Variable rest : list (option str).

Hypothesis answered : client (request resume_text jd_text) = Returns response.
Hypothesis first_choice : choices response = content :: rest.

Lemma analyze_resume_parsed (v : value) (w : world) :
  json_loads content = Returns v ->
  analyze_resume client resume_text jd_text w = (Returns v, w).
Proof.
  intros H. unfold analyze_resume, bind, call, try_except.
  now rewrite answered, first_choice, H.
Qed.

Lemma analyze_resume_unparsed (e : exn) (w : world) :
  json_loads content = Raises e ->
  analyze_resume client resume_text jd_text w
  = (Returns (invalid_json content), w).
Proof.
  intros H. unfold analyze_resume, bind, call, try_except.
  now rewrite answered, first_choice, H.
Qed.

End Analysis.



(** The shape of a parsed object is not checked: an object with an
    unknown verdict and nothing else comes back as it is. *)
Lemma analyze_resume_trusts_shape :
  analyze_resume (answering (dq "{'verdict': 'Banana'}")) (py "cv") (py "dev")
    fresh
  = (Returns (PyDict [(py "verdict", PyStr (py "Banana"))]), fresh)
  /\ as_EvaluationResult (PyDict [(py "verdict", PyStr (py "Banana"))]) = None.
Proof. split; vm_compute; reflexivity. Qed.

(** What counts as parsable is decided by [json.loads], which also takes
    the constants [NaN], [Infinity] and [-Infinity]. *)
Lemma json_loads_takes_NaN :
  json_loads (Some (py "NaN")) = Returns (PyFloat (py "NaN")).
Proof. vm_compute. reflexivity. Qed.



(* ------------------------------------------------------------------ *)
(** ** How [main] tells a result from a failure *)

Create HintDb page.

Lemma appends_ret {A} (a : A) : appends (ret a).
Proof. intros w. exists []. rewrite app_nil_r. now destruct w. Qed.

Lemma appends_call {A} (r : outcome A) : appends (call r).
Proof. intros w. exists []. rewrite app_nil_r. now destruct w. Qed.

Lemma appends_show (c : st_call) : appends (show c).
Proof. intros w. now exists [c]. Qed.

Lemma appends_bind {A B} (m : Py A) (k : A -> Py B) :
  appends m -> (forall a, appends (k a)) -> appends (bind m k).
Proof.
  intros Hm Hk w. unfold bind.
  destruct (Hm w) as [shown E]. destruct (m w) as [[a|e] w1]; simpl in E.
  - destruct (Hk a w1) as [shown' E']. exists (shown ++ shown').
    rewrite E', E. simpl. now rewrite app_assoc.
  - now exists shown.
Qed.

Lemma appends_bullets (items : list value) : appends (bullets items).
Proof.
  induction items as [|x items IH]; simpl.
  - apply appends_ret.
  - apply appends_bind; [apply appends_show | intros _; exact IH].
Qed.

#[local] Hint Resolve appends_ret appends_call appends_show appends_bullets
  : page.
#[local] Hint Extern 2 (appends (bind _ _)) =>
  apply appends_bind; [|intro] : page.

Lemma appends_bullet_list (result : value) (key : str) :
  appends (bullet_list result key).
Proof. unfold bullet_list. auto 6 with page. Qed.

#[local] Hint Resolve appends_bullet_list : page.

Lemma has_key_dict_get (d : list (str * value)) (key : str) :
  existsb (fun kv => str_eqb (fst kv) key) d
  = match dict_get d key with Some _ => true | None => false end.
Proof.
  induction d as [|[k x] d IH]; simpl; [reflexivity|].
  destruct (str_eqb k key); [reflexivity | exact IH].
Qed.

Lemma show_result_failure (d : list (str * value)) (x raw : value)
  (w : world) :
  dict_get d (py "error") = Some x ->
  dict_get d (py "raw") = Some raw ->
  show_result (PyDict d) w
  = (Returns tt, World (cursor w) (screen w ++ [MODEL_ERROR; st_text raw])).
Proof.
  intros He Hr. unfold show_result, bind, call, contains, getitem, show.
  rewrite has_key_dict_get, He. cbn [cursor screen]. rewrite Hr.
  now rewrite <- app_assoc.
Qed.

Lemma show_result_no_raw (d : list (str * value)) (x : value) (w : world) :
  dict_get d (py "error") = Some x ->
  dict_get d (py "raw") = None ->
  show_result (PyDict d) w
  = (Raises (KeyError (py "raw")),
     World (cursor w) (screen w ++ [MODEL_ERROR])).
Proof.
  intros He Hr. unfold show_result, bind, call, contains, getitem, show.
  rewrite has_key_dict_get, He. cbn [cursor screen]. now rewrite Hr.
Qed.

Lemma show_result_success (d : list (str * value)) (w : world) :
  dict_get d (py "error") = None ->
  exists shown : list st_call,
    snd (show_result (PyDict d) w)
    = World (cursor w) (screen w ++ MATCH_SUMMARY :: shown).
Proof.
  intros He. unfold show_result.
  unfold bind at 1. unfold call at 1. unfold contains.
  rewrite has_key_dict_get, He.
  unfold bind at 1. unfold show at 1.
  match goal with
  | |- context [snd (?m ?w1)] =>
    assert (H : appends m) by auto 40 with page;
      destruct (H w1) as [shown E]; exists shown; rewrite E
  end.
  cbn [cursor screen]. now rewrite <- app_assoc.
Qed.

(** C10: [main] tells a failure from a result by the [error] key of the
    returned record alone.  A record with that key is shown as a parse
    failure, [Model error: Could not parse response] followed by its raw
    text; a record without it is shown as a match summary.  So a
    response body that is a JSON object with an [error] key, parsed
    without fault, is shown as a parse failure: for the body
    [error_shaped_body] [analyze_resume] returns the very record it
    returns for the unparsable body [oops], and the page ends with the
    error and the raw text. *)
Theorem error_key_alone_marks_failure :
  (forall (d : list (str * value)) (x raw : value) (w : world),
      dict_get d (py "error") = Some x ->
      dict_get d (py "raw") = Some raw ->
      show_result (PyDict d) w
      = (Returns tt,
         World (cursor w) (screen w ++ [MODEL_ERROR; st_text raw])))
  /\ (forall (d : list (str * value)) (w : world),
         dict_get d (py "error") = None ->
         exists shown : list st_call,
           snd (show_result (PyDict d) w)
           = World (cursor w) (screen w ++ MATCH_SUMMARY :: shown))
  /\ exists d : list (str * value),
       json_loads (Some error_shaped_body) = Returns (PyDict d)
       /\ dict_get d (py "error") = Some (PyStr (py "Invalid JSON from model"))
       /\ json_loads (Some (py "oops")) = Raises JSONDecodeError
       /\ (forall (resume_text jd_text : str) (w : world),
              analyze_resume (answering error_shaped_body)
                resume_text jd_text w
              = (Returns (PyDict d), w)
              /\ analyze_resume (answering (py "oops")) resume_text jd_text w
                 = (Returns (PyDict d), w))
       /\ as_ParseFailure (PyDict d) = Some {| rawResponseText := py "oops" |}
       /\ exists before : list st_call,
            main (runtime_with empty_refusing_reader (document_of [])
                    (answering error_shaped_body)) pressed fresh
            = (Returns tt,
               World 2 (before ++ [MODEL_ERROR; st_text (PyStr (py "oops"))])).
Proof.
  split; [exact show_result_failure|]. split; [exact show_result_success|].
  exists [ (py "error", PyStr (py "Invalid JSON from model"));
           (py "raw", PyStr (py "oops")) ].
  assert (Hbody : json_loads (Some error_shaped_body)
                  = Returns (invalid_json (Some (py "oops"))))
    by (vm_compute; reflexivity).
  assert (Hraw : json_loads (Some (py "oops")) = Raises JSONDecodeError)
    by (vm_compute; reflexivity).
  split; [exact Hbody|]. split; [reflexivity|]. split; [exact Hraw|].
  split; [|split].
  - intros resume_text jd_text w. split.
    + exact (analyze_resume_parsed (answering error_shaped_body)
               resume_text jd_text _ _ [] eq_refl eq_refl _ w Hbody).
    + exact (analyze_resume_unparsed (answering (py "oops"))
               resume_text jd_text _ _ [] eq_refl eq_refl _ w Hraw).
  - reflexivity.
  - exists (firstn 9 (screen (snd (main
              (runtime_with empty_refusing_reader (document_of [])
                 (answering error_shaped_body)) pressed fresh)))).
    vm_compute. reflexivity.
Qed.

Lemma error_key_alone_marks_failure_witness :
  show_result (PyDict [(py "error", PyInt 1); (py "raw", PyStr (py "r"))])
    fresh
  = (Returns tt, World 0 [MODEL_ERROR; st_text (PyStr (py "r"))])
  /\ exists shown : list st_call,
       snd (show_result (PyDict [(py "match_score", PyInt 82)]) fresh)
       = World 0 (MATCH_SUMMARY :: shown).
Proof.
  pose proof error_key_alone_marks_failure as [H1 [H2 _]].
  split.
  - exact (H1 [(py "error", PyInt 1); (py "raw", PyStr (py "r"))]
              (PyInt 1) (PyStr (py "r")) fresh eq_refl eq_refl).
  - exact (H2 [(py "match_score", PyInt 82)] fresh eq_refl).
Defined.

(* ------------------------------------------------------------------ *)
(** ** [json.loads] never runs out of fuel *)

Lemma skip_ws_length (s : str) :
  (List.length (skip_ws s) <= List.length s)%nat.
Proof.
  induction s as [|c s IH]; simpl; [lia|].
  destruct (is_ws c); simpl; lia.
Qed.

Lemma consed_returns {A} (c : A) (r : outcome (list A * str))
  (t : list A) (rest : str) :
  consed c r = Returns (t, rest) ->
  exists t', r = Returns (t', rest).
Proof.
  destruct r as [[t' rest']|e]; simpl; [|discriminate].
  intros [= _ <-]. now exists t'.
Qed.

(** Splits the outermost case distinction of a hypothesis. *)
Ltac split_match H :=
  match type of H with
  | context [match ?x with _ => _ end] => destruct x eqn:?
  end.

Lemma scanstring_length_bounded (n : nat) :
  forall (s t rest : str),
    (List.length s <= n)%nat ->
    scanstring s = Returns (t, rest) ->
    (List.length rest < List.length s)%nat.
Proof.
  induction n as [|n IH]; intros [|c s1] t rest Hn H;
    try discriminate H; cbn [List.length] in Hn; [lia|].
  cbn [scanstring] in H.
  repeat split_match H; try discriminate H;
    try (injection H as <- <-);
    try (apply consed_returns in H as [t' H]; apply IH in H);
    cbn [List.length] in *; lia.
Qed.

Lemma scanstring_length (s t rest : str) :
  scanstring s = Returns (t, rest) ->
  (List.length rest < List.length s)%nat.
Proof. now apply (scanstring_length_bounded (List.length s)). Qed.

Lemma consed_raises {A} (c : A) (r : outcome (list A * str)) (e : exn) :
  consed c r = Raises e -> r = Raises e.
Proof. destruct r as [[t' rest']|e']; simpl; [discriminate | congruence]. Qed.

Lemma scanstring_raises_bounded (n : nat) :
  forall (s : str) (e : exn),
    (List.length s <= n)%nat ->
    scanstring s = Raises e -> e = JSONDecodeError.
Proof.
  induction n as [|n IH]; intros [|c s1] e Hn H; cbn [List.length] in Hn;
    try lia; cbn [scanstring] in H; try congruence.
  repeat split_match H; try congruence;
    apply consed_raises in H; apply IH in H; try assumption;
    cbn [List.length] in *; lia.
Qed.

Lemma scanstring_raises (s : str) (e : exn) :
  scanstring s = Raises e -> e = JSONDecodeError.
Proof. now apply (scanstring_raises_bounded (List.length s)). Qed.

Lemma digits_length (s : str) :
  (List.length (snd (digits s)) <= List.length s)%nat.
Proof.
  induction s as [|c s IH]; simpl; [lia|].
  destruct (is_digit c); [|simpl; lia].
  destruct (digits s) as [d rest]. simpl in *. lia.
Qed.

Lemma strip_prefix_length (prefix s rest : str) :
  strip_prefix prefix s = Some rest ->
  (List.length rest + List.length prefix = List.length s)%nat.
Proof.
  revert s; induction prefix as [|p prefix IH]; intros [|c s] H; simpl in *;
    try discriminate H; try (injection H as <-; simpl; lia).
  destruct (p =? c); [|discriminate H]. apply IH in H. lia.
Qed.

Lemma match_integer_length (s : str) (neg : bool) (int rest : str) :
  match_integer s = Some (neg, int, rest) ->
  (List.length rest < List.length s)%nat.
Proof.
  unfold match_integer.
  destruct s as [|c s']; [discriminate|].
  destruct (c =? chr "-").
  - destruct s' as [|c' s'']; [discriminate|].
    destruct (c' =? chr "0"); [intros [= _ _ <-]; simpl; lia|].
    destruct (is_digit c'); [|discriminate].
    pose proof (digits_length s'') as Hd.
    destruct (digits s'') as [d r]. intros [= _ _ <-]. simpl in *. lia.
  - destruct (c =? chr "0"); [intros [= _ _ <-]; simpl; lia|].
    destruct (is_digit c); [|discriminate].
    pose proof (digits_length s') as Hd.
    destruct (digits s') as [d r]. intros [= _ _ <-]. simpl in *. lia.
Qed.

Lemma match_frac_length (s : str) :
  (List.length (snd (match_frac s)) <= List.length s)%nat.
Proof.
  unfold match_frac.
  destruct s as [|p [|c s']]; cbn [snd List.length]; try lia.
  destruct ((p =? chr ".") && is_digit c); cbn [snd List.length]; [|lia].
  pose proof (digits_length s') as Hd.
  destruct (digits s') as [d r]. cbn [snd List.length] in *. lia.
Qed.

Lemma match_exp_length (s : str) :
  (List.length (snd (match_exp s)) <= List.length s)%nat.
Proof.
  unfold match_exp.
  destruct s as [|e s1]; cbn [snd List.length]; [lia|].
  destruct ((e =? chr "e") || (e =? chr "E")); cbn [snd List.length]; [|lia].
  destruct s1 as [|g s']; cbn [digits snd List.length]; [lia|].
  destruct ((g =? chr "-") || (g =? chr "+")).
  - pose proof (digits_length s') as Hd.
    destruct (digits s') as [[|x d] r]; cbn [snd List.length] in *; lia.
  - pose proof (digits_length (g :: s')) as Hd.
    destruct (digits (g :: s')) as [[|x d] r]; cbn [snd List.length] in *;
      lia.
Qed.

Lemma match_number_length (s : str) (v : value) (rest : str) :
  match_number s = Some (v, rest) ->
  (List.length rest < List.length s)%nat.
Proof.
  unfold match_number.
  destruct (match_integer s) as [[[neg int] s1]|] eqn:Ei; [|discriminate].
  apply match_integer_length in Ei.
  pose proof (match_frac_length s1) as Hf.
  destruct (match_frac s1) as [frac s2].
  pose proof (match_exp_length s2) as He.
  destruct (match_exp s2) as [exp s3]. simpl in *.
  destruct frac, exp; intros [= _ <-]; lia.
Qed.

Lemma consumes_returns (v : value) (rest s : str) :
  (List.length rest < List.length s)%nat -> consumes (Returns (v, rest)) s.
Proof. intros H. split; [discriminate | now intros ? ? [= _ <-]]. Qed.

Lemma consumes_decode_error (s : str) : consumes (Raises JSONDecodeError) s.
Proof. split; [discriminate | discriminate]. Qed.

Lemma consumes_longer (r : outcome (value * str)) (s' s : str) :
  consumes r s' -> (List.length s' <= List.length s)%nat -> consumes r s.
Proof.
  intros [H1 H2] Hl. split; [assumption|].
  intros v rest E. specialize (H2 v rest E). lia.
Qed.

Create HintDb json.
#[local] Hint Resolve consumes_decode_error : json.

Lemma scan_fuel (fuel : nat) :
  (forall s : str,
      (2 * List.length s + 1 <= fuel)%nat -> consumes (scan_once fuel s) s)
  /\ (forall (s : str) (acc : list (str * value)),
         (2 * List.length s + 1 <= fuel)%nat ->
         consumes (parse_object fuel s acc) s)
  /\ (forall (s : str) (acc : list value),
         (2 * List.length s + 2 <= fuel)%nat ->
         consumes (parse_array fuel s acc) s).
Proof.
  induction fuel as [|fuel [IHscan [IHobject IHarray]]];
    [repeat split; intros; lia|].
  split; [|split].
  - intros [|c s1] Hf; cbn [scan_once]; [auto with json|].
    cbn [List.length] in Hf.
    destruct (c =? QUOTE).
    { destruct (scanstring s1) as [[t rest]|e] eqn:E.
      - apply scanstring_length in E. apply consumes_returns. simpl. lia.
      - apply scanstring_raises in E as ->. auto with json. }
    pose proof (skip_ws_length s1) as Hw.
    destruct (c =? chr "{").
    { destruct (skip_ws s1) as [|c2 s2]; [auto with json|].
      destruct (c2 =? chr "}").
      - apply consumes_returns. simpl in *. lia.
      - apply (consumes_longer _ (c2 :: s2)); [|simpl in *; lia].
        apply IHobject. simpl in *. lia. }
    destruct (c =? chr "[").
    { destruct (skip_ws s1) as [|c2 s2]; [auto with json|].
      destruct (c2 =? chr "]").
      - apply consumes_returns. simpl in *. lia.
      - apply (consumes_longer _ (c2 :: s2)); [|simpl in *; lia].
        apply IHarray. simpl in *. lia. }
    repeat match goal with
           | |- consumes (match strip_prefix ?p ?s with _ => _ end) _ =>
             let E := fresh "E" in
             destruct (strip_prefix p s) as [rest|] eqn:E;
               [apply strip_prefix_length in E; apply consumes_returns;
                simpl in *; lia|]
           | |- consumes (match match_number ?s with _ => _ end) _ =>
             let E := fresh "E" in
             destruct (match_number s) as [[v rest]|] eqn:E;
               [apply match_number_length in E; apply consumes_returns;
                simpl in *; lia|]
           end.
    auto with json.
  - intros [|q s1] acc Hf; cbn [parse_object]; [auto with json|].
    cbn [List.length] in Hf.
    destruct (q =? QUOTE); [|auto with json].
    destruct (scanstring s1) as [[key s2]|e] eqn:E;
      [|apply scanstring_raises in E as ->; auto with json].
    apply scanstring_length in E.
    pose proof (skip_ws_length s2) as Hw2.
    destruct (skip_ws s2) as [|c s3]; [auto with json|].
    destruct (c =? chr ":"); [|auto with json].
    pose proof (skip_ws_length s3) as Hw3. cbn [List.length] in Hw2.
    destruct (IHscan (skip_ws s3)) as [Hne Hlen]; [lia|].
    destruct (scan_once fuel (skip_ws s3)) as [[v s4]|e];
      [|split; [assumption | discriminate]].
    specialize (Hlen v s4 eq_refl).
    pose proof (skip_ws_length s4) as Hw4.
    destruct (skip_ws s4) as [|d s5]; [auto with json|].
    cbn [List.length] in Hw4.
    destruct (d =? chr "}"); [apply consumes_returns; simpl; lia|].
    destruct (d =? chr ","); [|auto with json].
    pose proof (skip_ws_length s5) as Hw5.
    apply (consumes_longer _ (skip_ws s5)); [|simpl; lia].
    apply IHobject. lia.
  - intros s acc Hf; cbn [parse_array].
    destruct (IHscan s) as [Hne Hlen]; [lia|].
    destruct (scan_once fuel s) as [[v s1]|e];
      [|split; [assumption | discriminate]].
    specialize (Hlen v s1 eq_refl).
    pose proof (skip_ws_length s1) as Hw1.
    destruct (skip_ws s1) as [|d s2]; [auto with json|].
    cbn [List.length] in Hw1.
    destruct (d =? chr "]"); [apply consumes_returns; lia|].
    destruct (d =? chr ","); [|auto with json].
    pose proof (skip_ws_length s2) as Hw2.
    apply (consumes_longer _ (skip_ws s2)); [|lia].
    apply IHarray. lia.
Qed.

(** The fuel [json_loads] starts with is never used up. *)
Lemma json_loads_fuel_suffices (s : option str) :
  json_loads s <> Raises RecursionError.
Proof.
  destruct s as [s|]; [|discriminate]. unfold json_loads.
  destruct s as [|c s']; [discriminate|].
  destruct (c =? BOM); [discriminate|].
  set (t := c :: s').
  destruct (scan_fuel (2 * List.length t + 2)) as [Hscan _].
  pose proof (skip_ws_length t) as Hw.
  destruct (Hscan (skip_ws t)) as [Hne _]; [lia|].
  destruct (scan_once _ (skip_ws t)) as [[obj rest]|e]; [|congruence].
  destruct (skip_ws rest); discriminate.
Qed.

(* ------------------------------------------------------------------ *)
(** ** [main], step by step *)

Lemma showing_nil (w : world) : showing w [] = w.
Proof. unfold showing. rewrite app_nil_r. now destruct w. Qed.

Lemma showing_app (w : world) (a b : list st_call) :
  showing (showing w a) b = showing w (a ++ b).
Proof. unfold showing. simpl. now rewrite app_assoc. Qed.

Lemma show_showing (c : st_call) (w : world) :
  show c w = (Returns tt, showing w [c]).
Proof. reflexivity. Qed.

Lemma bind_show {B} (c : st_call) (k : unit -> Py B) (w : world) :
  bind (show c) k w = k tt (showing w [c]).
Proof. reflexivity. Qed.

(** What [main] does once the text of the resume is there. *)
Lemma main_after_extraction (rt : runtime) (ui : widgets) (w : world) :
  main rt ui w =
  match
    match uploaded_file ui with
    | Some f =>
      match extract_text_from_file rt (Some f) (showing w PAGE_TOP) with
      | (Returns t, w2) =>
        (Returns t, if truthy t then showing w2 (extracted t) else w2)
      | (Raises e, w2) => (Raises e, w2)
      end
    | None => (Returns [], showing w PAGE_TOP)
    end
  with
  | (Returns resume_text, w3) =>
    if analyze_clicked ui then
      if negb (truthy resume_text)
      then (Returns tt, showing w3 (PAGE_MIDDLE ++ [UPLOAD_FIRST]))
      else if negb (truthy (strip (jd_text ui)))
      then (Returns tt, showing w3 (PAGE_MIDDLE ++ [PASTE_FIRST]))
      else
        match get_openai_client rt (api_key ui) with
        | Returns client =>
          bind (analyze_resume client resume_text (jd_text ui)) show_result
            (showing w3 PAGE_MIDDLE)
        | Raises e => (Raises e, showing w3 PAGE_MIDDLE)
        end
    else (Returns tt, showing w3 PAGE_MIDDLE)
  | (Raises e, w3) => (Raises e, w3)
  end.
Proof.
  unfold main, showing, PAGE_TOP, PAGE_MIDDLE, extracted, UPLOAD_FIRST,
    PASTE_FIRST.
  unfold bind, show, ret, call. cbn [cursor screen].
  rewrite <- !app_assoc. cbn [app].
  destruct (uploaded_file ui) as [f|].
  - destruct (extract_text_from_file rt (Some f) _) as [[t|e] w2];
      [|reflexivity].
    destruct (truthy t) eqn:Et; cbn [cursor screen]; rewrite ?Et;
      cbn [negb]; rewrite <- ?app_assoc; cbn [app];
      destruct (analyze_clicked ui); try reflexivity;
      cbn [cursor screen]; rewrite <- ?app_assoc; cbn [app];
      try reflexivity.
    destruct (truthy (strip (jd_text ui))); cbn [negb cursor screen];
      rewrite <- ?app_assoc; cbn [app]; [|reflexivity].
    now destruct (get_openai_client rt (api_key ui)).
  - cbn [truthy negb cursor screen]. rewrite <- ?app_assoc. cbn [app].
    destruct (analyze_clicked ui); cbn [cursor screen];
      rewrite <- ?app_assoc; reflexivity.
Qed.

(* ------------------------------------------------------------------ *)
(** ** What [main] shows of a returned record *)

Lemma bullets_shown (items : list value) (w : world) :
  bullets items w = (Returns tt, showing w (map bullet items)).
Proof.
  revert w; induction items as [|x items IH]; intros w; cbn [bullets map].
  - unfold ret. now rewrite showing_nil.
  - rewrite bind_show, IH, showing_app. reflexivity.
Qed.

(** X1: a bullet list of [main] goes through whatever the record holds
    under the key: the items of a list, the characters of a string, the
    keys of an object, one bullet each and in order; a missing key raises
    [KeyError], and a number, a boolean or [None] raises [TypeError],
    nothing being shown in either case. *)
Theorem bullet_list_by_shape
  (d : list (str * value)) (key : str) (w : world) :
  bullet_list (PyDict d) key w =
  match dict_get d key with
  | None => (Raises (KeyError key), w)
  | Some (PyList items) => (Returns tt, showing w (map bullet items))
  | Some (PyStr s) =>
    (Returns tt, showing w (map (fun c => bullet (PyStr [c])) s))
  | Some (PyDict pairs) =>
    (Returns tt, showing w (map (fun kv => bullet (PyStr (fst kv))) pairs))
  | Some _ => (Raises TypeError, w)
  end.
Proof.
  unfold bullet_list, bind, call, getitem.
  destruct (dict_get d key) as [[| | | | s | items | pairs]|];
    cbn [iterate]; try reflexivity;
    rewrite bullets_shown, ?map_map; reflexivity.
Qed.

Lemma bullet_list_of_list
  (d : list (str * value)) (key : str) (items : list value) (w : world) :
  dict_get d key = Some (PyList items) ->
  bullet_list (PyDict d) key w = (Returns tt, showing w (map bullet items)).
Proof.
  intros H. unfold bullet_list, bind, call, getitem. rewrite H.
  cbn [iterate]. apply bullets_shown.
Qed.

(** X2: a record without an [error] key whose seven fields are all
    there, the three lists being lists, is shown in full and in this
    order: the heading, the score over 100, the verdict, the summary,
    the strengths, the gaps and the suggestions one bullet per item under
    their headings, and the role level; [main] then returns.  The score,
    the verdict, the summary and the level are shown whatever their
    type. *)
Theorem show_result_full_page
  (d : list (str * value)) (score verdict summary level : value)
  (strengths gaps suggestions : list value) (w : world) :
  dict_get d (py "error") = None ->
  dict_get d (py "match_score") = Some score ->
  dict_get d (py "verdict") = Some verdict ->
  dict_get d (py "summary") = Some summary ->
  dict_get d (py "strengths") = Some (PyList strengths) ->
  dict_get d (py "gaps") = Some (PyList gaps) ->
  dict_get d (py "improvement_suggestions") = Some (PyList suggestions) ->
  dict_get d (py "recommended_role_level") = Some level ->
  show_result (PyDict d) w
  = (Returns tt,
     showing w
       ([ MATCH_SUMMARY;
          st_metric (py "Match Score") [Format score; Text (py "/100")];
          st_write [Text (py "**Verdict:** "); Format verdict];
          st_write [Text (py "**Summary:** "); Format summary];
          STRENGTHS ]
        ++ map bullet strengths
        ++ [GAPS] ++ map bullet gaps
        ++ [SUGGESTIONS] ++ map bullet suggestions
        ++ [st_write [Text (py "**Recommended Role Level:** ");
                      Format level]])).
Proof.
  intros He Hsc Hv Hsm Hst Hg Hsg Hl.
  unfold show_result.
  unfold bind at 1. unfold call at 1. unfold contains.
  rewrite has_key_dict_get, He.
  rewrite bind_show.
  unfold bind at 1. unfold call at 1. unfold getitem at 1. rewrite Hsc.
  rewrite bind_show.
  unfold bind at 1. unfold call at 1. unfold getitem at 1. rewrite Hv.
  rewrite bind_show.
  unfold bind at 1. unfold call at 1. unfold getitem at 1. rewrite Hsm.
  rewrite bind_show. rewrite bind_show.
  unfold bind at 1. rewrite (bullet_list_of_list d _ strengths _ Hst).
  rewrite bind_show.
  unfold bind at 1. rewrite (bullet_list_of_list d _ gaps _ Hg).
  rewrite bind_show.
  unfold bind at 1. rewrite (bullet_list_of_list d _ suggestions _ Hsg).
  unfold bind at 1. unfold call at 1. unfold getitem at 1. rewrite Hl.
  rewrite show_showing, !showing_app.
  reflexivity.
Qed.

(** X3: when the object [json.loads] returned is not a [dict] (a list, a
    string, a number, a boolean or [None]), showing it raises
    [TypeError]: at the [error] test for what holds no members, at the
    first subscript otherwise, after the error line or the heading alone
    was shown. *)
Theorem show_result_rejects_non_object (v : value) (w : world) :
  (forall d, v <> PyDict d) ->
  exists shown : list st_call,
    show_result v w = (Raises TypeError, showing w shown)
    /\ (shown = [] \/ shown = [MODEL_ERROR] \/ shown = [MATCH_SUMMARY]).
Proof.
  intros Hv. unfold show_result.
  destruct v as [| b | z | l | s | items | d];
    try (exists []; rewrite showing_nil; split; [reflexivity | now left]).
  - unfold bind at 1. unfold call at 1. cbn [contains].
    destruct (is_substring (py "error") s).
    + exists [MODEL_ERROR]. split; [reflexivity | auto].
    + exists [MATCH_SUMMARY]. split; [reflexivity | auto].
  - unfold bind at 1. unfold call at 1. cbn [contains].
    destruct (existsb _ items).
    + exists [MODEL_ERROR]. split; [reflexivity | auto].
    + exists [MATCH_SUMMARY]. split; [reflexivity | auto].
  - now destruct (Hv d).
Qed.

Lemma show_result_rejects_non_object_witness :
  exists shown : list st_call,
    show_result (PyList [PyInt 1; PyInt 2]) fresh
    = (Raises TypeError, showing fresh shown)
    /\ (shown = [] \/ shown = [MODEL_ERROR] \/ shown = [MATCH_SUMMARY]).
Proof.
  apply (show_result_rejects_non_object (PyList [PyInt 1; PyInt 2]) fresh).
  intros d. discriminate.
Defined.

(** X4: a record without an [error] key and without a [match_score] is
    shown as far as the heading and then raises [KeyError] for
    [match_score]; a record with an [error] key and no [raw] raises
    [KeyError] for [raw] once the error line is shown. *)
Theorem show_result_missing_key (d : list (str * value)) (w : world) :
  (dict_get d (py "error") = None ->
   dict_get d (py "match_score") = None ->
   show_result (PyDict d) w
   = (Raises (KeyError (py "match_score")), showing w [MATCH_SUMMARY]))
  /\ (forall x : value,
         dict_get d (py "error") = Some x ->
         dict_get d (py "raw") = None ->
         show_result (PyDict d) w
         = (Raises (KeyError (py "raw")), showing w [MODEL_ERROR])).
Proof.
  split.
  - intros He Hs. unfold show_result.
    unfold bind at 1. unfold call at 1. unfold contains.
    rewrite has_key_dict_get, He. rewrite bind_show.
    unfold bind at 1. unfold call at 1. unfold getitem at 1.
    now rewrite Hs.
  - intros x He Hr. exact (show_result_no_raw d x w He Hr).
Qed.

Lemma show_result_missing_key_witness :
  show_result (PyDict [(py "verdict", PyStr (py "Weak match"))]) fresh
  = (Raises (KeyError (py "match_score")), showing fresh [MATCH_SUMMARY])
  /\ show_result (PyDict [(py "error", PyStr (py "quota"))]) fresh
     = (Raises (KeyError (py "raw")), showing fresh [MODEL_ERROR]).
Proof.
  split.
  - exact (proj1 (show_result_missing_key
                    [(py "verdict", PyStr (py "Weak match"))] fresh)
             eq_refl eq_refl).
  - exact (proj2 (show_result_missing_key
                    [(py "error", PyStr (py "quota"))] fresh)
             (PyStr (py "quota")) eq_refl eq_refl).
Defined.

(* ------------------------------------------------------------------ *)
(** ** [analyze_resume] and the service *)

(** X5: a failure of the service call is not turned into a parse
    failure: when [chat.completions.create] raises, [analyze_resume]
    raises the same exception, and when the response has no choice it
    raises [IndexError]; nothing is shown in either case. *)
Theorem analyze_resume_propagates_call_failure
  (client : Client) (resume_text jd_text : str) (w : world) :
  (forall e : exn,
      client (request resume_text jd_text) = Raises e ->
      analyze_resume client resume_text jd_text w = (Raises e, w))
  /\ (forall response : ChatCompletion,
         client (request resume_text jd_text) = Returns response ->
         choices response = [] ->
         analyze_resume client resume_text jd_text w = (Raises IndexError, w)).
Proof.
  split.
  - intros e H. unfold analyze_resume, bind, call. now rewrite H.
  - intros response H Hc. unfold analyze_resume, bind, call.
    now rewrite H, Hc.
Qed.

Lemma analyze_resume_propagates_call_failure_witness :
  analyze_resume failing_client (py "cv") (py "dev") fresh
  = (Raises unreachable, fresh)
  /\ analyze_resume (fun _ => Returns {| choices := [] |}) (py "cv") (py "dev")
       fresh
     = (Raises IndexError, fresh).
Proof.
  split.
  - exact (proj1 (analyze_resume_propagates_call_failure
                    failing_client (py "cv") (py "dev") fresh)
             unreachable eq_refl).
  - exact (proj2 (analyze_resume_propagates_call_failure
                    (fun _ => Returns {| choices := [] |})
                    (py "cv") (py "dev") fresh)
             {| choices := [] |} eq_refl eq_refl).
Defined.



Lemma skip_ws_blank (s : str) : forallb is_ws s = true -> skip_ws s = [].
Proof.
  induction s as [|c s IH]; [reflexivity|]. cbn [forallb skip_ws].
  intros H. apply andb_prop in H as [Hc Hs]. now rewrite Hc, IH.
Qed.

Lemma json_loads_blank (body : str) :
  forallb is_ws body = true ->
  json_loads (Some body) = Raises JSONDecodeError.
Proof.
  intros H. unfold json_loads. destruct body as [|c s]; [reflexivity|].
  assert (Hc : (c =? BOM) = false).
  { cbn [forallb] in H. apply andb_prop in H as [Hc _].
    destruct (N.eqb_spec c BOM) as [->|]; [discriminate Hc | reflexivity]. }
  rewrite Hc, (skip_ws_blank _ H). reflexivity.
Qed.

(** X7: a response body that is empty or made of spaces, tabs and line
    ends only is a parse failure: [json.loads] raises on it and
    [analyze_resume] returns the failure record holding the body. *)
Theorem analyze_resume_blank_body
  (client : Client) (resume_text jd_text : str)
  (response : ChatCompletion) (body : str) (rest : list (option str))
  (w : world) :
  client (request resume_text jd_text) = Returns response ->
  choices response = Some body :: rest ->
  forallb is_ws body = true ->
  json_loads (Some body) = Raises JSONDecodeError
  /\ analyze_resume client resume_text jd_text w
     = (Returns (invalid_json (Some body)), w).
Proof.
  intros Hc Hr Hb. pose proof (json_loads_blank body Hb) as Hj.
  split; [exact Hj|].
  exact (analyze_resume_unparsed client resume_text jd_text response
           (Some body) rest Hc Hr _ w Hj).
Qed.

Lemma analyze_resume_blank_body_witness :
  json_loads (Some []) = Raises JSONDecodeError
  /\ analyze_resume (answering []) (py "cv") (py "dev") fresh
     = (Returns (invalid_json (Some [])), fresh).
Proof.
  exact (analyze_resume_blank_body (answering []) (py "cv") (py "dev")
           {| choices := [Some []] |} [] [] fresh eq_refl eq_refl eq_refl).
Defined.

Lemma show_result_full_page_witness :
  show_result
    (PyDict [ (py "match_score", PyInt 82);
              (py "verdict", PyStr (py "Strong match"));
              (py "summary", PyStr (py "..."));
              (py "strengths", PyList [PyStr (py "a")]);
              (py "gaps", PyList []);
              (py "improvement_suggestions",
               PyList [PyStr (py "c"); PyStr (py "d")]);
              (py "recommended_role_level", PyStr (py "Mid-level")) ])
    fresh
  = (Returns tt,
     World 0
       [ MATCH_SUMMARY;
         st_metric (py "Match Score") [Format (PyInt 82); Text (py "/100")];
         st_write [Text (py "**Verdict:** ");
                   Format (PyStr (py "Strong match"))];
         st_write [Text (py "**Summary:** "); Format (PyStr (py "..."))];
         STRENGTHS; bullet (PyStr (py "a"));
         GAPS;
         SUGGESTIONS; bullet (PyStr (py "c")); bullet (PyStr (py "d"));
         st_write [Text (py "**Recommended Role Level:** ");
                   Format (PyStr (py "Mid-level"))] ]).
Proof.
  exact (show_result_full_page
           [ (py "match_score", PyInt 82);
             (py "verdict", PyStr (py "Strong match"));
             (py "summary", PyStr (py "..."));
             (py "strengths", PyList [PyStr (py "a")]);
             (py "gaps", PyList []);
             (py "improvement_suggestions",
              PyList [PyStr (py "c"); PyStr (py "d")]);
             (py "recommended_role_level", PyStr (py "Mid-level")) ]
           (PyInt 82) (PyStr (py "Strong match")) (PyStr (py "..."))
           (PyStr (py "Mid-level"))
           [PyStr (py "a")] [] [PyStr (py "c"); PyStr (py "d")] fresh
           eq_refl eq_refl eq_refl eq_refl eq_refl eq_refl eq_refl eq_refl).
Defined.

(* ------------------------------------------------------------------ *)
(** ** The gates of [main] *)

Lemma lstrip_blank (s : str) : blank s = true -> lstrip s = [].
Proof.
  unfold blank. induction s as [|c s IH]; [reflexivity|].
  cbn [forallb lstrip]. intros H. apply andb_prop in H as [Hc Hs].
  now rewrite Hc, IH.
Qed.

Lemma lstrip_keeps_blank (s : str) : blank (lstrip s) = blank s.
Proof.
  unfold blank. induction s as [|c s IH]; [reflexivity|].
  cbn [lstrip]. destruct (py_isspace c) eqn:E; [|reflexivity].
  cbn [forallb]. now rewrite E, IH.
Qed.

Lemma lstrip_nil_blank (s : str) : lstrip s = [] -> blank s = true.
Proof.
  unfold blank. induction s as [|c s IH]; [reflexivity|].
  cbn [lstrip forallb]. destruct (py_isspace c); [exact IH | discriminate].
Qed.

Lemma blank_rev (s : str) : blank (rev s) = blank s.
Proof.
  unfold blank. induction s as [|c s IH]; [reflexivity|].
  cbn [rev forallb]. rewrite forallb_app, IH. cbn [forallb].
  rewrite andb_true_r. apply andb_comm.
Qed.

(** [s.strip()] is empty exactly when [s] holds whitespace only. *)
Lemma strip_truthy (s : str) : truthy (strip s) = negb (blank s).
Proof.
  unfold strip. destruct (blank s) eqn:E.
  - now rewrite (lstrip_blank s E).
  - destruct (rev (lstrip (rev (lstrip s)))) as [|c t] eqn:R; [|reflexivity].
    apply (f_equal (@rev N)) in R. rewrite rev_involutive in R.
    cbn [rev] in R. apply lstrip_nil_blank in R.
    rewrite blank_rev, lstrip_keeps_blank in R. congruence.
Qed.

Lemma truthy_nonempty (s : str) : s <> [] -> truthy s = true.
Proof. destruct s; [congruence | reflexivity]. Qed.

Lemma extract_ignores_OpenAI
  (rt : runtime) (ctor : option str -> outcome Client)
  (doc : option UploadedFile) (w : world) :
  extract_text_from_file (with_OpenAI rt ctor) doc w
  = extract_text_from_file rt doc w.
Proof. reflexivity. Qed.

(** X8: the button pressed with no usable resume text, because nothing
    was uploaded or because the extraction returned the empty string,
    ends the run with [Upload resume first.]: [main] returns, and neither
    the job description nor the service is looked at. *)
Theorem main_asks_for_resume (rt : runtime) (ui : widgets) (w : world) :
  analyze_clicked ui = true ->
  match uploaded_file ui with
  | None =>
    main rt ui w
    = (Returns tt, showing w (PAGE_TOP ++ PAGE_MIDDLE ++ [UPLOAD_FIRST]))
  | Some f =>
    forall w2 : world,
      extract_text_from_file rt (Some f) (showing w PAGE_TOP)
      = (Returns [], w2) ->
      main rt ui w
      = (Returns tt, showing w2 (PAGE_MIDDLE ++ [UPLOAD_FIRST]))
  end.
Proof.
  intros Hc. rewrite main_after_extraction.
  destruct (uploaded_file ui) as [f|].
  - intros w2 He. rewrite He, Hc. reflexivity.
  - rewrite Hc. cbn [truthy negb]. now rewrite showing_app.
Qed.

Lemma main_asks_for_resume_witness :
  main (runtime_with empty_refusing_reader (document_of []) failing_client)
    pressed_without_upload fresh
  = (Returns tt, World 0 (PAGE_TOP ++ PAGE_MIDDLE ++ [UPLOAD_FIRST]))
  /\ main (runtime_with empty_refusing_reader (document_of [])
             failing_client)
       {| api_key := [];
          uploaded_file := Some (Upload (py "image/png") [x89; x50]);
          jd_text := py "dev";
          analyze_clicked := true |} fresh
     = (Returns tt,
        World 0 (PAGE_TOP ++ [st_warning (py "Unsupported file type")]
                   ++ PAGE_MIDDLE ++ [UPLOAD_FIRST])).
Proof.
  split.
  - exact (main_asks_for_resume
             (runtime_with empty_refusing_reader (document_of [])
                failing_client)
             pressed_without_upload fresh eq_refl).
  - exact (main_asks_for_resume
             (runtime_with empty_refusing_reader (document_of [])
                failing_client)
             {| api_key := [];
                uploaded_file := Some (Upload (py "image/png") [x89; x50]);
                jd_text := py "dev";
                analyze_clicked := true |} fresh eq_refl _ eq_refl).
Defined.

(** X9: the button pressed with resume text but a job description of
    whitespace only (or none at all) ends the run with
    [Paste job description.]: [main] returns and the service is not
    called. *)
Theorem main_asks_for_job_description
  (rt : runtime) (ui : widgets) (w w2 : world) (f : UploadedFile)
  (resume_text : str) :
  analyze_clicked ui = true ->
  uploaded_file ui = Some f ->
  extract_text_from_file rt (Some f) (showing w PAGE_TOP)
  = (Returns resume_text, w2) ->
  resume_text <> [] ->
  blank (jd_text ui) = true ->
  main rt ui w
  = (Returns tt,
     showing w2 (extracted resume_text ++ PAGE_MIDDLE ++ [PASTE_FIRST])).
Proof.
  intros Hc Hf He Ht Hb. rewrite main_after_extraction, Hf, He, Hc.
  rewrite (truthy_nonempty _ Ht), strip_truthy, Hb. cbn [negb].
  now rewrite showing_app.
Qed.

Lemma main_asks_for_job_description_witness :
  main (runtime_with empty_refusing_reader (document_of []) failing_client)
    pressed_with_blank_description fresh
  = (Returns tt,
     World 2 (PAGE_TOP ++ extracted (py "cv") ++ PAGE_MIDDLE
                ++ [PASTE_FIRST])).
Proof.
  refine (main_asks_for_job_description
            (runtime_with empty_refusing_reader (document_of [])
               failing_client)
            pressed_with_blank_description fresh _
            (Upload TEXT_PLAIN [x63; x76]) (py "cv")
            eq_refl eq_refl eq_refl _ eq_refl).
  discriminate.
Defined.

(** X10: [main] builds no client and calls no service unless the button
    is pressed, a file is uploaded and the job description holds more
    than whitespace: otherwise the run is the same whatever [OpenAI]
    would do. *)
Theorem main_leaves_service_alone
  (rt : runtime) (ctor : option str -> outcome Client)
  (ui : widgets) (w : world) :
  analyze_clicked ui = false \/ uploaded_file ui = None
  \/ blank (jd_text ui) = true ->
  main (with_OpenAI rt ctor) ui w = main rt ui w.
Proof.
  intros H. rewrite !main_after_extraction.
  destruct (uploaded_file ui) as [f|].
  - rewrite extract_ignores_OpenAI.
    destruct (extract_text_from_file rt (Some f) _) as [[t|e] w2];
      [|reflexivity].
    destruct (analyze_clicked ui); [|reflexivity].
    destruct H as [H|[H|H]]; try discriminate H.
    destruct (negb (truthy t)); [reflexivity|].
    now rewrite strip_truthy, H.
  - destruct (analyze_clicked ui); reflexivity.
Qed.

Lemma main_leaves_service_alone_witness :
  main (with_OpenAI
          (runtime_with empty_refusing_reader (document_of [])
             (answering example_body))
          (fun _ => Raises unreachable))
    pressed_with_blank_description fresh
  = main (runtime_with empty_refusing_reader (document_of [])
            (answering example_body))
      pressed_with_blank_description fresh.
Proof.
  apply (main_leaves_service_alone
           (runtime_with empty_refusing_reader (document_of [])
              (answering example_body))
           (fun _ => Raises unreachable)
           pressed_with_blank_description fresh).
  right. right. reflexivity.
Defined.

Lemma show_invalid_json (content : option str) (w : world) :
  show_result (invalid_json content) w
  = (Returns tt, showing w [MODEL_ERROR; st_text (obj_of_content content)]).
Proof.
  exact (show_result_failure
           [ (py "error", PyStr (py "Invalid JSON from model"));
             (py "raw", obj_of_content content) ]
           (PyStr (py "Invalid JSON from model")) (obj_of_content content) w
           eq_refl eq_refl).
Qed.

(** X11: from the button to the page: with resume text, a job
    description and a client, a response whose first choice
    [json.loads] cannot parse ends the run with the error line followed
    by that content as it came ([None] when the choice held none);
    [main] returns. *)
Theorem main_shows_unparsable_response
  (rt : runtime) (ui : widgets) (w w2 : world) (f : UploadedFile)
  (resume_text : str) (client : Client) (response : ChatCompletion)
  (content : option str) (rest : list (option str)) (e : exn) :
  analyze_clicked ui = true ->
  uploaded_file ui = Some f ->
  extract_text_from_file rt (Some f) (showing w PAGE_TOP)
  = (Returns resume_text, w2) ->
  resume_text <> [] ->
  blank (jd_text ui) = false ->
  get_openai_client rt (api_key ui) = Returns client ->
  client (request resume_text (jd_text ui)) = Returns response ->
  choices response = content :: rest ->
  json_loads content = Raises e ->
  main rt ui w
  = (Returns tt,
     showing w2
       (extracted resume_text ++ PAGE_MIDDLE
        ++ [MODEL_ERROR; st_text (obj_of_content content)])).
Proof.
  intros Hc Hf He Ht Hb Hk Hr Hch Hj.
  rewrite main_after_extraction, Hf, He, Hc.
  rewrite (truthy_nonempty _ Ht), strip_truthy, Hb, Hk. cbn [negb].
  unfold bind.
  rewrite (analyze_resume_unparsed client resume_text (jd_text ui) response
             content rest Hr Hch e _ Hj).
  rewrite show_invalid_json, !showing_app, <- ?app_assoc. reflexivity.
Qed.

Lemma main_shows_unparsable_response_witness :
  main (runtime_with empty_refusing_reader (document_of [])
          (fun _ => Returns {| choices := [None] |}))
    pressed fresh
  = (Returns tt,
     World 2 (PAGE_TOP ++ extracted (py "cv") ++ PAGE_MIDDLE
                ++ [MODEL_ERROR; st_text PyNone])).
Proof.
  refine (main_shows_unparsable_response
            (runtime_with empty_refusing_reader (document_of [])
               (fun _ => Returns {| choices := [None] |}))
            pressed fresh _ (Upload TEXT_PLAIN [x63; x76]) (py "cv")
            (fun _ => Returns {| choices := [None] |})
            {| choices := [None] |} None [] TypeError
            eq_refl eq_refl eq_refl _ eq_refl eq_refl eq_refl eq_refl
            eq_refl).
  discriminate.
Defined.

(** X12: [main] calls the extractor outside any [try]: when the
    extraction of the uploaded file raises, [main] raises the same
    exception, button pressed or not, with the top of the page as the
    extractor left it. *)
Theorem main_propagates_extraction_failure
  (rt : runtime) (ui : widgets) (w w2 : world) (f : UploadedFile)
  (e : exn) :
  uploaded_file ui = Some f ->
  extract_text_from_file rt (Some f) (showing w PAGE_TOP) = (Raises e, w2) ->
  main rt ui w = (Raises e, w2).
Proof.
  intros Hf He. now rewrite main_after_extraction, Hf, He.
Qed.

Lemma main_propagates_extraction_failure_witness :
  main (runtime_with empty_refusing_reader (document_of [])
          (answering example_body))
    pressed_with_empty_pdf fresh
  = (Raises (LibraryError "PyPDF2.errors.EmptyFileError"), World 0 PAGE_TOP).
Proof.
  exact (main_propagates_extraction_failure
           (runtime_with empty_refusing_reader (document_of [])
              (answering example_body))
           pressed_with_empty_pdf fresh _ (Upload APPLICATION_PDF []) _
           eq_refl eq_refl).
Defined.

(** X13: past its gates [main] lets a failure of the service through:
    when building the client raises, or when the call raises, [main]
    raises the same exception with the page shown as far as the rule
    above the button and no result on it. *)
Theorem main_propagates_service_failure
  (rt : runtime) (ui : widgets) (w w2 : world) (f : UploadedFile)
  (resume_text : str) (e : exn) :
  analyze_clicked ui = true ->
  uploaded_file ui = Some f ->
  extract_text_from_file rt (Some f) (showing w PAGE_TOP)
  = (Returns resume_text, w2) ->
  resume_text <> [] ->
  blank (jd_text ui) = false ->
  get_openai_client rt (api_key ui) = Raises e
  \/ (exists client : Client,
         get_openai_client rt (api_key ui) = Returns client
         /\ client (request resume_text (jd_text ui)) = Raises e) ->
  main rt ui w
  = (Raises e, showing w2 (extracted resume_text ++ PAGE_MIDDLE)).
Proof.
  intros Hc Hf He Ht Hb H.
  rewrite main_after_extraction, Hf, He, Hc.
  rewrite (truthy_nonempty _ Ht), strip_truthy, Hb. cbn [negb].
  rewrite showing_app.
  destruct H as [Hk|[client [Hk Hr]]]; rewrite Hk; [reflexivity|].
  unfold bind, analyze_resume, call. now rewrite Hr.
Qed.

Lemma main_propagates_service_failure_witness :
  main (runtime_with empty_refusing_reader (document_of []) failing_client)
    pressed fresh
  = (Raises unreachable,
     World 2 (PAGE_TOP ++ extracted (py "cv") ++ PAGE_MIDDLE)).
Proof.
  refine (main_propagates_service_failure
            (runtime_with empty_refusing_reader (document_of [])
               failing_client)
            pressed fresh _ (Upload TEXT_PLAIN [x63; x76]) (py "cv")
            unreachable eq_refl eq_refl eq_refl _ eq_refl _).
  - discriminate.
  - right. exists failing_client. split; reflexivity.
Defined.

(* ------------------------------------------------------------------ *)
(** ** More on the extractor *)

(** X14: a PDF or word-processing file whose parsing library is not
    installed is not read at all: the extractor returns the empty
    string, shows the one error naming the missing library, and leaves
    the cursor of the file where it was. *)
Theorem extract_reports_missing_parser
  (rt : runtime) (f : UploadedFile) (w : world) :
  (type f = APPLICATION_PDF ->
   PdfReader rt = None ->
   extract_text_from_file rt (Some f) w
   = (Returns [],
      showing w [st_error (py "PyPDF2 missing. Add to requirements.txt")]))
  /\ (type f = DOCX ->
      Document rt = None ->
      extract_text_from_file rt (Some f) w
      = (Returns [],
         showing w
           [st_error (py "python-docx missing. Add to requirements.txt")])).
Proof.
  split; intros Ht Hn.
  - now rewrite (extract_pdf rt f w Ht), Hn.
  - now rewrite (extract_docx rt f w Ht), Hn.
Qed.

Lemma extract_reports_missing_parser_witness :
  extract_text_from_file
    {| PdfReader := None; Document := None;
       OpenAI := fun _ => Returns failing_client |}
    (Some (Upload APPLICATION_PDF [x25; x50; x44; x46])) fresh
  = (Returns [],
     World 0 [st_error (py "PyPDF2 missing. Add to requirements.txt")])
  /\ extract_text_from_file
       {| PdfReader := None; Document := None;
          OpenAI := fun _ => Returns failing_client |}
       (Some (Upload DOCX [x50; x4b; x03; x04])) fresh
     = (Returns [],
        World 0
          [st_error (py "python-docx missing. Add to requirements.txt")]).
Proof.
  split.
  - exact (proj1 (extract_reports_missing_parser
                    {| PdfReader := None; Document := None;
                       OpenAI := fun _ => Returns failing_client |}
                    (Upload APPLICATION_PDF [x25; x50; x44; x46]) fresh)
             eq_refl eq_refl).
  - exact (proj2 (extract_reports_missing_parser
                    {| PdfReader := None; Document := None;
                       OpenAI := fun _ => Returns failing_client |}
                    (Upload DOCX [x50; x4b; x03; x04]) fresh)
             eq_refl eq_refl).
Defined.

Lemma for_pages_stops (good : list Page) :
  forall (bad : Page) (rest : list Page) (acc : str) (w : world) (e : exn),
    forallb page_returns good = true ->
    extract_text bad = Raises e ->
    for_pages (good ++ bad :: rest) acc w = (Raises e, w).
Proof.
  induction good as [|page good IH]; intros bad rest acc w e Hg Hb.
  - cbn [app for_pages]. unfold bind, call. now rewrite Hb.
  - cbn [forallb] in Hg. apply andb_prop in Hg as [Hp Hg].
    cbn [app for_pages]. unfold bind, call. unfold page_returns in Hp.
    destruct (extract_text page) as [t|e']; [|discriminate Hp].
    now apply IH.
Qed.

(** X15: the pages of a PDF are read in order and the first page whose
    [extract_text] raises ends the extraction: the extractor raises that
    exception, the text of the pages before it is lost, the pages after
    it are not read, and nothing is shown. *)
Theorem extract_pdf_stops_at_raising_page
  (rt : runtime) (f : UploadedFile) (w : world)
  (reader : stream_parser (list Page)) (good : list Page) (bad : Page)
  (rest : list Page) (c : nat) (e : exn) :
  type f = APPLICATION_PDF ->
  PdfReader rt = Some reader ->
  reader (getvalue f) = (Returns (good ++ bad :: rest), c) ->
  forallb page_returns good = true ->
  extract_text bad = Raises e ->
  extract_text_from_file rt (Some f) w = (Raises e, World c (screen w)).
Proof.
  intros Ht Hr Hp Hg Hb.
  rewrite (extract_pdf rt f w Ht), Hr, Hp.
  now apply for_pages_stops.
Qed.

Lemma extract_pdf_stops_at_raising_page_witness :
  extract_text_from_file
    (runtime_with
       (fun _ =>
          (Returns [ {| extract_text := Returns (Some (py "Jane")) |};
                     {| extract_text := Raises (LibraryError "PyPDF2") |};
                     {| extract_text := Returns (Some (py "Doe")) |} ],
           4%nat))
       (document_of []) failing_client)
    (Some (Upload APPLICATION_PDF [x25; x50; x44; x46])) fresh
  = (Raises (LibraryError "PyPDF2"), World 4 []).
Proof.
  exact (extract_pdf_stops_at_raising_page
           (runtime_with
              (fun _ =>
                 (Returns
                    [ {| extract_text := Returns (Some (py "Jane")) |};
                      {| extract_text := Raises (LibraryError "PyPDF2") |};
                      {| extract_text := Returns (Some (py "Doe")) |} ],
                  4%nat))
              (document_of []) failing_client)
           (Upload APPLICATION_PDF [x25; x50; x44; x46]) fresh _
           [ {| extract_text := Returns (Some (py "Jane")) |} ]
           {| extract_text := Raises (LibraryError "PyPDF2") |}
           [ {| extract_text := Returns (Some (py "Doe")) |} ]
           4%nat (LibraryError "PyPDF2")
           eq_refl eq_refl eq_refl eq_refl eq_refl).
Defined.

Lemma decode_length (s : bytes) :
  (List.length (utf8_decode_ignore s) <= List.length s)%nat.
Proof.
  apply (decode_cases
           (fun s r => (List.length r <= List.length s)%nat));
    intros; cbn [List.length] in *; lia.
Qed.

Lemma decode_ascii (s : bytes) :
  forallb (fun b => Byte.to_N b <? 0x80) s = true ->
  utf8_decode_ignore s = map Byte.to_N s.
Proof.
  induction s as [|b s IH]; [reflexivity|]. cbn [forallb map].
  intros H. apply andb_prop in H as [Hb Hs]. apply N.ltb_lt in Hb.
  now rewrite decode_1, IH.
Qed.

(** X16: the text of a plain-text file never has more characters than
    the payload has bytes, and a payload of ASCII bytes only comes back
    unchanged, one character per byte. *)
Theorem extract_plain_text_length_and_ascii
  (rt : runtime) (payload : bytes) (shown : list st_call) :
  (exists text : str,
      extract_text_from_file rt (Some (Upload TEXT_PLAIN payload))
        (World 0 shown)
      = (Returns text, World (List.length payload) shown)
      /\ (List.length text <= List.length payload)%nat)
  /\ (forallb (fun b => Byte.to_N b <? 0x80) payload = true ->
      extract_text_from_file rt (Some (Upload TEXT_PLAIN payload))
        (World 0 shown)
      = (Returns (map Byte.to_N payload),
         World (List.length payload) shown)).
Proof.
  rewrite extract_plain by reflexivity. cbn [cursor screen getvalue skipn].
  rewrite Nat.max_0_l. split.
  - eexists. split; [reflexivity | apply decode_length].
  - intros H. now rewrite decode_ascii.
Qed.

Lemma extract_plain_text_length_and_ascii_witness :
  extract_text_from_file
    (runtime_with empty_refusing_reader (document_of []) failing_client)
    (Some (Upload TEXT_PLAIN [x47; x6f; x0a])) fresh
  = (Returns [71; 111; 10], World 3 []).
Proof.
  exact (proj2 (extract_plain_text_length_and_ascii
                  (runtime_with empty_refusing_reader (document_of [])
                     failing_client)
                  [x47; x6f; x0a] []) eq_refl).
Defined.

(* ------------------------------------------------------------------ *)
(** ** The request *)

Lemma user_content_sections (resume_text jd_text : str) :
  user_content resume_text jd_text
  = LF ++ py "JOB DESCRIPTION:" ++ LF ++ jd_text ++ RESUME_LABEL
      ++ resume_text ++ LF.
Proof.
  unfold user_content, RESUME_LABEL. cbn [join].
  rewrite <- !app_assoc. cbn [app]. now rewrite app_nil_r.
Qed.

(** X17: the two texts go into the user message as they are, the
    resume after the job description and the label between them, with
    nothing escaped: a job description that holds the label cannot be
    told from a shorter one followed by a longer resume, so two
    different pairs of inputs give the same message. *)
Theorem user_content_sections_can_be_forged (a b c : str) :
  user_content c (a ++ RESUME_LABEL ++ b)
  = user_content (b ++ RESUME_LABEL ++ c) a
  /\ a ++ RESUME_LABEL ++ b <> a.
Proof.
  split.
  - rewrite !user_content_sections, <- !app_assoc. reflexivity.
  - intros H. apply (f_equal (@List.length N)) in H.
    rewrite !length_app in H. cbn in H. lia.
Qed.



Lemma decode_encode_prefix (s : str) (rest : bytes) :
  forallb is_scalar s = true ->
  utf8_decode_ignore (utf8_encode s ++ rest) = s ++ utf8_decode_ignore rest.
Proof.
  induction s as [|c s IH]; [reflexivity|].
  cbn [forallb utf8_encode flat_map]. intros H.
  apply andb_prop in H as [Hc Hs].
  rewrite <- app_assoc, (decode_encode_char c _ Hc). cbn [app].
  f_equal. now apply IH.
Qed.

(** X19: a plain-text payload that starts with the UTF-8 encoding of a
    text is extracted as that text followed by the decoding of what
    comes after it: malformed bytes further on do not disturb what was
    well formed before them. *)
Theorem extract_plain_text_valid_prefix
  (rt : runtime) (s : str) (rest : bytes) (shown : list st_call) :
  forallb is_scalar s = true ->
  extract_text_from_file rt
    (Some (Upload TEXT_PLAIN (utf8_encode s ++ rest))) (World 0 shown)
  = (Returns (s ++ utf8_decode_ignore rest),
     World (List.length (utf8_encode s ++ rest)) shown).
Proof.
  intros Hs. rewrite extract_plain by reflexivity.
  cbn [cursor screen getvalue skipn]. rewrite Nat.max_0_l.
  now rewrite decode_encode_prefix.
Qed.

Lemma extract_plain_text_valid_prefix_witness :
  extract_text_from_file
    (runtime_with empty_refusing_reader (document_of []) failing_client)
    (Some (Upload TEXT_PLAIN [xc3; xa9; x41; xff; xe4; xb8])) fresh
  = (Returns [0xE9; 0x41], World 6 []).
Proof.
  exact (extract_plain_text_valid_prefix
           (runtime_with empty_refusing_reader (document_of [])
              failing_client)
           [0xE9; 0x41] [xff; xe4; xb8] [] eq_refl).
Defined.
